(** * Nginx log watcher for blue/green deployments: model of [watcher.py]

    The development embeds the detection engine of [AlertWatcher]
    (classification of a log entry, the sliding window of outcomes, the
    failover detector, the error-rate monitor, alert dispatch) and proves
    properties of it.

    - Python [int] values are [Z]; Python [float] values are binary64
      primitive floats, so the arithmetic of [calculate_error_rate] and of
      [check_cooldown] is the interpreter's.
    - Python [str] values are [string]s whose characters are the code points
      below 256.
    - [self] is split into the fields [__init__] reads from the environment
      and never assigns again ([Config]) and the fields the methods mutate
      ([AlertWatcher]).
    - The methods run in a state monad over a [World]: the object, the
      number of readings of the clock and of POSTs made so far, and the
      chronological list of what was logged and posted. What the clock
      shows at each reading and whether each POST goes through are
      parameters of the methods. *)

From Stdlib Require Import ZArith List String Ascii Bool Lia Floats Uint63.
Import ListNotations.

Local Open Scope string_scope.
Local Open Scope Z_scope.

(** ** Python primitives used by the watcher *)

Module Py.

(** [str.isspace] on one character, for the code points below 256. *)
Definition isspace (c : ascii) : bool :=
  let n := N.to_nat (N_of_ascii c) in
  (((9 <=? n) && (n <=? 13)) || ((28 <=? n) && (n <=? 32))
   || (n =? 133) || (n =? 160))%nat.

Definition is_empty (s : string) : bool :=
  match s with EmptyString => true | String _ _ => false end.

Fixpoint lstrip (s : string) : string :=
  match s with
  | EmptyString => EmptyString
  | String c r => if isspace c then lstrip r else s
  end.

Fixpoint rstrip (s : string) : string :=
  match s with
  | EmptyString => EmptyString
  | String c r =>
      let r' := rstrip r in
      if isspace c && is_empty r' then EmptyString else String c r'
  end.

(** [s.strip()] *)
Definition strip (s : string) : string := rstrip (lstrip s).

(** [s.split(sep)] for a non-empty [sep]: the pieces between the leftmost,
    non-overlapping occurrences of [sep]. [skip] counts the characters of
    an occurrence already recognised that are still to be passed over. *)
Fixpoint split_from (sep : string) (skip : nat) (s : string) : list string :=
  match s with
  | EmptyString => [EmptyString]
  | String c r =>
      match skip with
      | S k => split_from sep k r
      | O =>
          if prefix sep s
          then EmptyString :: split_from sep (Nat.pred (length sep)) r
          else match split_from sep 0 r with
               | tok :: toks => String c tok :: toks
               | [] => [String c EmptyString]
               end
      end
  end.

Definition split (sep s : string) : list string := split_from sep 0 s.

(** Does [sep] occur in [s]? *)
Fixpoint occurs (sep s : string) : bool :=
  match s with
  | EmptyString => prefix sep EmptyString
  | String _ r => prefix sep s || occurs sep r
  end.

Definition digit_value (c : ascii) : option Z :=
  let n := Z.of_N (N_of_ascii c) in
  if (48 <=? n) && (n <=? 57) then Some (n - 48) else None.

(** The digits of a decimal literal as [int(str)] reads them: at least one
    digit, single underscores allowed between digits only. *)
Fixpoint digits (acc : Z) (after_digit : bool) (s : string) : option Z :=
  match s with
  | EmptyString => if after_digit then Some acc else None
  | String c r =>
      match digit_value c with
      | Some d => digits (10 * acc + d) true r
      | None =>
          if Ascii.eqb c "_"%char
          then if after_digit then digits acc false r else None
          else None
      end
  end.

(** [int(s)]: [None] stands for [ValueError]. Surrounding white space is
    dropped, then an optional sign, then the digits. The interpreter's
    configurable cap on the number of digits is not part of the model. *)
Definition int (s : string) : option Z :=
  match strip s with
  | String "+" r => digits 0 false r
  | String "-" r => option_map Z.opp (digits 0 false r)
  | t => digits 0 false t
  end.

(** [l[start:]] *)
Definition slice_from {A : Type} (start : Z) (l : list A) : list A :=
  let n := Z.of_nat (List.length l) in
  if start <? 0 then skipn (Z.to_nat (Z.max 0 (n + start))) l
  else skipn (Z.to_nat (Z.min start n)) l.

(** [float(z)] for an [int] below 2^63 in absolute value; exact below
    2^53. *)
Definition float_of_int (z : Z) : float :=
  if z <? 0 then PrimFloat.opp (PrimFloat.of_uint63 (Uint63.of_Z (- z)))
  else PrimFloat.of_uint63 (Uint63.of_Z z).

(** [a / b] on two non-negative [int]s with [b <> 0]: the correctly rounded
    quotient, which for operands below 2^53 (any two list lengths) is the
    binary64 quotient of their conversions. *)
Definition truediv (a b : Z) : float :=
  PrimFloat.div (float_of_int a) (float_of_int b).

(** The exact value of a finite float as a fraction [num / 2^k]. *)
Definition exact (x : float) : option (Z * Z) :=
  match Prim2SF x with
  | S754_zero _ => Some (0, 0)
  | S754_finite neg m e =>
      let v := if neg then Z.neg m else Z.pos m in
      if e <? 0 then Some (v, - e) else Some (v * 2 ^ e, 0)
  | _ => None
  end.

(** [x >= z] and [x < z] for a float [x] and an [int] [z]: Python compares
    the two exactly, without converting [z]. *)
Definition float_ge_int (x : float) (z : Z) : bool :=
  match Prim2SF x with
  | S754_nan => false
  | S754_infinity neg => negb neg
  | _ => match exact x with
         | Some (num, k) => z * 2 ^ k <=? num
         | None => false
         end
  end.

Definition float_lt_int (x : float) (z : Z) : bool :=
  match Prim2SF x with
  | S754_nan => false
  | S754_infinity neg => neg
  | _ => match exact x with
         | Some (num, k) => num <? z * 2 ^ k
         | None => false
         end
  end.

End Py.

(** ** Log entries and their classification *)

(** A parsed line: the JSON object with the three fields the watcher reads,
    each possibly absent. *)
Record LogEntry := {
  entry_status : option Z;
  entry_pool : option string;
  entry_upstream_status : option string
}.

(** [log_entry.get(key, default)] *)
Definition get {A : Type} (field : option A) (default : A) : A :=
  match field with Some v => v | None => default end.

(** The loop of [process_log_line] over the upstream statuses: [true] as soon
    as one of them converts to an integer of 500 or more ([break]); a piece
    that does not convert is passed over ([except ValueError: pass]). *)
Fixpoint scan_upstream (upstream_statuses : list string) : bool :=
  match upstream_statuses with
  | [] => false
  | us :: rest =>
      match Py.int (Py.strip us) with
      | Some us_code => if 500 <=? us_code then true else scan_upstream rest
      | None => scan_upstream rest
      end
  end.

Definition has_upstream_error (upstream_status_str : string) : bool :=
  if Py.is_empty upstream_status_str then false
  else scan_upstream (Py.split ", " upstream_status_str).

(** The value [process_log_line] appends to the window. *)
Definition effective_status (log_entry : LogEntry) : Z :=
  let status := get (entry_status log_entry) 0 in
  let upstream_status_str := get (entry_upstream_status log_entry) "" in
  if has_upstream_error upstream_status_str then 502 else status.

(** ** Configuration, object state and the world around it *)

(** What [__init__] reads from the environment and no method assigns. An
    unset webhook URL is [None]. *)
Record Config := {
  slack_webhook_url : option string;
  initial_pool : string;
  error_rate_threshold : float;
  window_size : Z;
  alert_cooldown_sec : Z
}.

(** The attributes the methods assign. [maintenance_mode] comes from the
    environment too, but the recovery paths clear it. *)
Record AlertWatcher := {
  maintenance_mode : bool;
  last_pool : string;
  request_window : list Z;
  last_failover_alert : float;
  last_error_rate_alert : float;
  last_recovery_alert : float;
  system_degraded : bool;
  total_requests : Z;
  failover_count : Z
}.

(** The object as [__init__] leaves it. *)
Definition init (cfg : Config) (maintenance : bool) : AlertWatcher := {|
  maintenance_mode := maintenance;
  last_pool := initial_pool cfg;
  request_window := [];
  last_failover_alert := 0%float;
  last_error_rate_alert := 0%float;
  last_recovery_alert := 0%float;
  system_degraded := false;
  total_requests := 0;
  failover_count := 0
|}.

(** The text of an alert, by the f-string that builds it, with the values it
    interpolates. *)
Inductive Message :=
| PoolRecoveryMessage (previous_pool pool : string)
    (total_requests failover_count : Z)
| FailoverMessage (previous_pool pool : string)
    (total_requests failover_count : Z)
| HighErrorRateMessage (error_rate threshold : float)
    (error_count window_len : Z) (pool : string) (total_requests : Z)
| SystemRecoveryMessage (pool : string) (error_rate threshold : float)
    (total_requests failover_count : Z).

(** The text of a [log] call. *)
Inductive LogText :=
| AlertSuppressed (title : string)
| AlertPrinted (title : string) (message : Message)
| AlertSent (title : string)
| AlertFailed
| RecoveryCooldownActive (previous_pool pool : string)
| FailoverCooldownActive (previous_pool pool : string)
| SystemRecoveryCooldownActive
| MaintenanceDisabled.

(** What the watcher does to the outside: a [log] call, or a
    [requests.post] of an alert to the webhook. *)
Inductive Event :=
| Logged (level : string) (text : LogText)
| Posted (url title : string) (message : Message) (color : string).

Record World := {
  self : AlertWatcher;
  clock_reads : nat;   (* calls of [time.time()] made so far *)
  posts : nat;         (* POSTs made so far *)
  emitted : list Event (* oldest first *)
}.

(** An alert handed to the webhook. *)
Definition is_delivery (e : Event) : bool :=
  match e with Posted _ _ _ _ => true | Logged _ _ => false end.

(** The one event every call of [send_slack_alert] leaves first: the alert
    swallowed by maintenance mode, printed to the console, or posted. *)
Definition is_dispatch (e : Event) : bool :=
  match e with
  | Posted _ _ _ _ => true
  | Logged _ (AlertSuppressed _) => true
  | Logged _ (AlertPrinted _ _) => true
  | Logged _ _ => false
  end.

Definition message_of (e : Event) : option Message :=
  match e with
  | Posted _ _ m _ => Some m
  | Logged _ (AlertPrinted _ m) => Some m
  | Logged _ _ => None
  end.

(** Field updates, [self.x = v]. *)
Definition set_maintenance_mode (v : bool) (o : AlertWatcher) :=
  {| maintenance_mode := v; last_pool := last_pool o;
     request_window := request_window o;
     last_failover_alert := last_failover_alert o;
     last_error_rate_alert := last_error_rate_alert o;
     last_recovery_alert := last_recovery_alert o;
     system_degraded := system_degraded o;
     total_requests := total_requests o;
     failover_count := failover_count o |}.

Definition set_last_pool (v : string) (o : AlertWatcher) :=
  {| maintenance_mode := maintenance_mode o; last_pool := v;
     request_window := request_window o;
     last_failover_alert := last_failover_alert o;
     last_error_rate_alert := last_error_rate_alert o;
     last_recovery_alert := last_recovery_alert o;
     system_degraded := system_degraded o;
     total_requests := total_requests o;
     failover_count := failover_count o |}.

Definition set_request_window (v : list Z) (o : AlertWatcher) :=
  {| maintenance_mode := maintenance_mode o; last_pool := last_pool o;
     request_window := v;
     last_failover_alert := last_failover_alert o;
     last_error_rate_alert := last_error_rate_alert o;
     last_recovery_alert := last_recovery_alert o;
     system_degraded := system_degraded o;
     total_requests := total_requests o;
     failover_count := failover_count o |}.

Definition set_last_failover_alert (v : float) (o : AlertWatcher) :=
  {| maintenance_mode := maintenance_mode o; last_pool := last_pool o;
     request_window := request_window o;
     last_failover_alert := v;
     last_error_rate_alert := last_error_rate_alert o;
     last_recovery_alert := last_recovery_alert o;
     system_degraded := system_degraded o;
     total_requests := total_requests o;
     failover_count := failover_count o |}.

Definition set_last_error_rate_alert (v : float) (o : AlertWatcher) :=
  {| maintenance_mode := maintenance_mode o; last_pool := last_pool o;
     request_window := request_window o;
     last_failover_alert := last_failover_alert o;
     last_error_rate_alert := v;
     last_recovery_alert := last_recovery_alert o;
     system_degraded := system_degraded o;
     total_requests := total_requests o;
     failover_count := failover_count o |}.

Definition set_last_recovery_alert (v : float) (o : AlertWatcher) :=
  {| maintenance_mode := maintenance_mode o; last_pool := last_pool o;
     request_window := request_window o;
     last_failover_alert := last_failover_alert o;
     last_error_rate_alert := last_error_rate_alert o;
     last_recovery_alert := v;
     system_degraded := system_degraded o;
     total_requests := total_requests o;
     failover_count := failover_count o |}.

Definition set_system_degraded (v : bool) (o : AlertWatcher) :=
  {| maintenance_mode := maintenance_mode o; last_pool := last_pool o;
     request_window := request_window o;
     last_failover_alert := last_failover_alert o;
     last_error_rate_alert := last_error_rate_alert o;
     last_recovery_alert := last_recovery_alert o;
     system_degraded := v;
     total_requests := total_requests o;
     failover_count := failover_count o |}.

Definition set_total_requests (v : Z) (o : AlertWatcher) :=
  {| maintenance_mode := maintenance_mode o; last_pool := last_pool o;
     request_window := request_window o;
     last_failover_alert := last_failover_alert o;
     last_error_rate_alert := last_error_rate_alert o;
     last_recovery_alert := last_recovery_alert o;
     system_degraded := system_degraded o;
     total_requests := v;
     failover_count := failover_count o |}.

Definition set_failover_count (v : Z) (o : AlertWatcher) :=
  {| maintenance_mode := maintenance_mode o; last_pool := last_pool o;
     request_window := request_window o;
     last_failover_alert := last_failover_alert o;
     last_error_rate_alert := last_error_rate_alert o;
     last_recovery_alert := last_recovery_alert o;
     system_degraded := system_degraded o;
     total_requests := total_requests o;
     failover_count := v |}.

(** ** The state monad of the methods *)

Definition M (A : Type) : Type := World -> A * World.

Definition ret {A : Type} (a : A) : M A := fun w => (a, w).

Definition bind {A B : Type} (m : M A) (k : A -> M B) : M B :=
  fun w => let (a, w') := m w in k a w'.

Declare Scope watcher_scope.
Delimit Scope watcher_scope with watcher.
Notation "x <- m ;; k" := (bind m (fun x => k))
  (at level 61, m at next level, right associativity) : watcher_scope.
Notation "m ;; k" := (bind m (fun _ => k))
  (at level 61, right associativity) : watcher_scope.
Local Open Scope watcher_scope.

(** Read an attribute of [self]. *)
Definition read {A : Type} (field : AlertWatcher -> A) : M A :=
  fun w => (field (self w), w).

(** Assign an attribute of [self]. *)
Definition assign (update : AlertWatcher -> AlertWatcher) : M unit :=
  fun w => (tt, {| self := update (self w); clock_reads := clock_reads w;
                   posts := posts w; emitted := emitted w |}).

Definition emit (e : Event) : M unit :=
  fun w => (tt, {| self := self w; clock_reads := clock_reads w;
                   posts := posts w; emitted := emitted w ++ [e] |}).

(** [log(level, message)] *)
Definition log (level : string) (text : LogText) : M unit :=
  emit (Logged level text).

(** Run a method for its effect on the world, and for its result. *)
Definition exec {A : Type} (m : M A) (w : World) : World := snd (m w).
Definition eval {A : Type} (m : M A) (w : World) : A := fst (m w).

(** The events a method added. *)
Definition added (before after : World) : list Event :=
  skipn (List.length (emitted before)) (emitted after).

(** ** The methods of [AlertWatcher] *)

(** The loop [for status in self.request_window: if status >= 500:
    error_count += 1]. *)
Fixpoint count_errors (error_count : Z) (window : list Z) : Z :=
  match window with
  | [] => error_count
  | status :: rest =>
      count_errors (if 500 <=? status then error_count + 1 else error_count)
        rest
  end.

Definition len {A : Type} (l : list A) : Z := Z.of_nat (List.length l).

Definition calculate_error_rate (o : AlertWatcher) : float :=
  if len (request_window o) =? 0 then 0%float
  else
    let error_count := count_errors 0 (request_window o) in
    let total_requests := len (request_window o) in
    PrimFloat.mul (Py.truediv error_count total_requests)
      (Py.float_of_int 100).

(** The sample count [check_error_rate] waits for. *)
Definition minimum_requests (cfg : Config) : Z :=
  if window_size cfg <? 50 then window_size cfg else 50.

Definition recovery_title : string := ":white_check_mark: - Pool Recovery Detected".
Definition failover_title : string := ":warning: - Failover Detected".
Definition error_rate_title : string := ":rotating_light: - High Error Rate Detected".

Section Methods.

Variable cfg : Config.
(** [clock n] is what the call number [n] of [time.time()] returns, and
    [webhook_ok n] tells whether POST number [n] goes through. *)
Variable clock : nat -> float.
Variable webhook_ok : nat -> bool.

Definition time_time : M float :=
  fun w => (clock (clock_reads w),
            {| self := self w; clock_reads := S (clock_reads w);
               posts := posts w; emitted := emitted w |}).

(** [requests.post(...)] followed by [raise_for_status()]: [false] when
    either raises. *)
Definition requests_post (url title : string) (message : Message)
    (color : string) : M bool :=
  fun w => (webhook_ok (posts w),
            {| self := self w; clock_reads := clock_reads w;
               posts := S (posts w);
               emitted := emitted w ++ [Posted url title message color] |}).

Definition webhook_unset : bool :=
  match slack_webhook_url cfg with
  | None => true
  | Some url => Py.is_empty url
  end.

Definition send_slack_alert (title : string) (message : Message)
    (color : string) : M bool :=
  maintenance <- read maintenance_mode ;;
  if maintenance then
    log "MAINTENANCE" (AlertSuppressed title) ;;
    ret true
  else if webhook_unset then
    log "ALERT" (AlertPrinted title message) ;;
    ret true
  else
    ok <- requests_post (get (slack_webhook_url cfg) "") title message color ;;
    if ok then
      log "INFO" (AlertSent title) ;;
      ret true
    else
      log "ERROR" AlertFailed ;;
      ret false.

(** The test of [check_cooldown] on a clock reading. *)
Definition cooldown_over (current_time last_alert_time : float) : bool :=
  Py.float_ge_int (PrimFloat.sub current_time last_alert_time)
    (alert_cooldown_sec cfg).

Definition check_cooldown (last_alert_time : float) : M bool :=
  current_time <- time_time ;;
  ret (cooldown_over current_time last_alert_time).

Definition detect_failover (pool : string) : M bool :=
  if Py.is_empty pool then ret false
  else
    last <- read last_pool ;;
    if (pool =? initial_pool cfg)%string
       && negb (last =? initial_pool cfg)%string
    then
      let previous_pool := last in
      assign (set_last_pool pool) ;;
      count <- read failover_count ;;
      assign (set_failover_count (count + 1)) ;;
      stamp <- read last_recovery_alert ;;
      allowed <- check_cooldown stamp ;;
      if negb allowed then
        log "INFO" (RecoveryCooldownActive previous_pool pool) ;;
        ret false
      else
        maintenance <- read maintenance_mode ;;
        (if maintenance then
           log "INFO" MaintenanceDisabled ;;
           assign (set_maintenance_mode false)
         else ret tt) ;;
        total <- read total_requests ;;
        count <- read failover_count ;;
        send_slack_alert recovery_title
          (PoolRecoveryMessage previous_pool pool total count) "good" ;;
        now <- time_time ;;
        assign (set_last_recovery_alert now) ;;
        ret true
    else if (pool =? last)%string then ret false
    else
      let previous_pool := last in
      assign (set_last_pool pool) ;;
      count <- read failover_count ;;
      assign (set_failover_count (count + 1)) ;;
      stamp <- read last_failover_alert ;;
      allowed <- check_cooldown stamp ;;
      if negb allowed then
        log "INFO" (FailoverCooldownActive previous_pool pool) ;;
        ret false
      else
        total <- read total_requests ;;
        count <- read failover_count ;;
        send_slack_alert failover_title
          (FailoverMessage previous_pool pool total count) "warning" ;;
        now <- time_time ;;
        assign (set_last_failover_alert now) ;;
        ret true.

Definition check_error_rate : M bool :=
  window <- read request_window ;;
  if len window <? minimum_requests cfg then ret false
  else
    error_rate <- read calculate_error_rate ;;
    if PrimFloat.ltb (error_rate_threshold cfg) error_rate then
      stamp <- read last_error_rate_alert ;;
      allowed <- check_cooldown stamp ;;
      if negb allowed then ret false
      else
        now <- time_time ;;
        assign (set_last_error_rate_alert now) ;;
        assign (set_system_degraded true) ;;
        window <- read request_window ;;
        let error_count := count_errors 0 window in
        pool <- read last_pool ;;
        total <- read total_requests ;;
        send_slack_alert error_rate_title
          (HighErrorRateMessage error_rate (error_rate_threshold cfg)
             error_count (len window) pool total) "danger" ;;
        ret true
    else
      degraded <- read system_degraded ;;
      if degraded then
        stamp <- read last_recovery_alert ;;
        allowed <- check_cooldown stamp ;;
        if negb allowed then
          log "INFO" SystemRecoveryCooldownActive ;;
          ret false
        else
          assign (set_system_degraded false) ;;
          maintenance <- read maintenance_mode ;;
          (if maintenance then
             log "INFO" MaintenanceDisabled ;;
             assign (set_maintenance_mode false)
           else ret tt) ;;
          pool <- read last_pool ;;
          total <- read total_requests ;;
          count <- read failover_count ;;
          send_slack_alert recovery_title
            (SystemRecoveryMessage pool error_rate (error_rate_threshold cfg)
               total count) "good" ;;
          now <- time_time ;;
          assign (set_last_recovery_alert now) ;;
          ret true
      else ret false.

(** The append and the trim of [process_log_line]:
    [if len(w) > window_size: w = w[-window_size:]]. *)
Definition push (outcome : Z) (window : list Z) : list Z :=
  let window := (window ++ [outcome])%list in
  if window_size cfg <? len window
  then Py.slice_from (- window_size cfg) window
  else window.

(** The first part of [process_log_line]: the request is counted and its
    outcome enters the window. *)
Definition track_request (log_entry : LogEntry) : M unit :=
  total <- read total_requests ;;
  assign (set_total_requests (total + 1)) ;;
  window <- read request_window ;;
  assign (set_request_window (push (effective_status log_entry) window)).

(** The second part: [if pool: self.detect_failover(pool)]. *)
Definition detect_pool (log_entry : LogEntry) : M unit :=
  let pool := get (entry_pool log_entry) "" in
  if negb (Py.is_empty pool) then
    detect_failover pool ;; ret tt
  else ret tt.

(** [process_log_line] on a line that [json.loads] turned into an object
    with an integer [status] and string [pool] and [upstream_status],
    where present. *)
Definition process_log_line (log_entry : LogEntry) : M unit :=
  track_request log_entry ;;
  detect_pool log_entry ;;
  check_error_rate ;;
  ret tt.

(** The lines read one after the other, as [tail_log_file] feeds them. *)
Fixpoint process_all (entries : list LogEntry) : M unit :=
  match entries with
  | [] => ret tt
  | log_entry :: rest => process_log_line log_entry ;; process_all rest
  end.

End Methods.

(** ** Notions the statements use *)

(** A piece of [upstream_status] that reads as a status of 500 or more. *)
Definition upstream_failure (us : string) : bool :=
  match Py.int (Py.strip us) with
  | Some us_code => 500 <=? us_code
  | None => false
  end.

(** Does the character [c] occur in [s]? *)
Fixpoint contains (c : ascii) (s : string) : bool :=
  match s with
  | EmptyString => false
  | String d r => Ascii.eqb d c || contains c r
  end.

(** The last [n] elements of [l], all of [l] when it has fewer. *)
Definition last_n {A : Type} (n : Z) (l : list A) : list A :=
  skipn (List.length l - Z.to_nat n) l.

(** The outcomes of a window that count as errors. *)
Definition errors_in (window : list Z) : list Z :=
  filter (fun status => 500 <=? status) window.

(** The three timestamps of the cooldowns. *)
Inductive Timestamp := FailoverStamp | RecoveryStamp | ErrorRateStamp.

Definition read_timestamp (t : Timestamp) (o : AlertWatcher) : float :=
  match t with
  | FailoverStamp => last_failover_alert o
  | RecoveryStamp => last_recovery_alert o
  | ErrorRateStamp => last_error_rate_alert o
  end.

(** The four events the watcher tells apart; the two that come from a pool
    label carry it. *)
Inductive EventKind :=
| Failover (pool : string)
| PoolRecovery (pool : string)
| ErrorRate
| ErrorRecovery.

(** The timestamp the cooldown of a kind goes by. *)
Definition timestamp_of (kind : EventKind) : Timestamp :=
  match kind with
  | Failover _ => FailoverStamp
  | PoolRecovery _ | ErrorRecovery => RecoveryStamp
  | ErrorRate => ErrorRateStamp
  end.

Definition is_recovery (kind : EventKind) : bool :=
  match kind with
  | PoolRecovery _ | ErrorRecovery => true
  | Failover _ | ErrorRate => false
  end.

(** An event that speaks of a failover: the alert by its title, in whatever
    way it was dispatched, or the note that the cooldown held it back. *)
Definition about_failover (e : Event) : bool :=
  match e with
  | Posted _ title _ _ => (title =? failover_title)%string
  | Logged _ (AlertSuppressed title) => (title =? failover_title)%string
  | Logged _ (AlertPrinted title _) => (title =? failover_title)%string
  | Logged _ (AlertSent title) => (title =? failover_title)%string
  | Logged _ (FailoverCooldownActive _ _) => true
  | Logged _ _ => false
  end.

(** An event that speaks of a recovery of the pool: the alert, by its text,
    or the note that the cooldown held it back. *)
Definition about_pool_recovery (e : Event) : bool :=
  match e with
  | Logged _ (RecoveryCooldownActive _ _) => true
  | _ => match message_of e with
         | Some (PoolRecoveryMessage _ _ _ _) => true
         | _ => false
         end
  end.

(** An alert swallowed by maintenance mode. *)
Definition is_suppressed (e : Event) : bool :=
  match e with
  | Logged _ (AlertSuppressed _) => true
  | _ => false
  end.

(** An event of the error-rate monitor: the alert of a high error rate or of
    the recovery from it, however dispatched, or the note that the cooldown
    held the recovery back. *)
Definition about_error_rate (e : Event) : bool :=
  match e with
  | Logged _ SystemRecoveryCooldownActive => true
  | Logged _ (AlertSuppressed title) => (title =? error_rate_title)%string
  | _ => match message_of e with
         | Some (HighErrorRateMessage _ _ _ _ _ _) => true
         | Some (SystemRecoveryMessage _ _ _ _ _) => true
         | _ => false
         end
  end.

Section Kinds.

Variable cfg : Config.
Variable clock : nat -> float.
Variable webhook_ok : nat -> bool.

(** The first test of [detect_failover]. *)
Definition returns_to_initial (pool last : string) : bool :=
  (pool =? initial_pool cfg)%string && negb (last =? initial_pool cfg)%string.

(** The method that handles an event of a kind. *)
Definition handler (kind : EventKind) : M bool :=
  match kind with
  | Failover pool | PoolRecovery pool =>
      detect_failover cfg clock webhook_ok pool
  | ErrorRate | ErrorRecovery => check_error_rate cfg clock webhook_ok
  end.

(** The tests that lead the handler to the cooldown check of a kind. *)
Definition arises (kind : EventKind) (o : AlertWatcher) : bool :=
  match kind with
  | PoolRecovery pool =>
      negb (Py.is_empty pool) && returns_to_initial pool (last_pool o)
  | Failover pool =>
      negb (Py.is_empty pool)
      && negb (returns_to_initial pool (last_pool o))
      && negb (pool =? last_pool o)%string
  | ErrorRate =>
      negb (len (request_window o) <? minimum_requests cfg)
      && PrimFloat.ltb (error_rate_threshold cfg) (calculate_error_rate o)
  | ErrorRecovery =>
      negb (len (request_window o) <? minimum_requests cfg)
      && negb (PrimFloat.ltb (error_rate_threshold cfg)
                 (calculate_error_rate o))
      && system_degraded o
  end.

(** The timestamp the cooldown check of a kind reads, and the handler
    assigns when the alert goes out. *)
Definition timer (kind : EventKind) (o : AlertWatcher) : float :=
  read_timestamp (timestamp_of kind) o.

(** The pool and the count of pool changes a handler leaves once it has
    reached its cooldown check. *)
Definition pool_after (kind : EventKind) (o : AlertWatcher) : string :=
  match kind with
  | Failover pool | PoolRecovery pool => pool
  | ErrorRate | ErrorRecovery => last_pool o
  end.

Definition failover_count_after (kind : EventKind) (o : AlertWatcher) : Z :=
  match kind with
  | Failover _ | PoolRecovery _ => failover_count o + 1
  | ErrorRate | ErrorRecovery => failover_count o
  end.

(** The assignment of a reading of the clock to the timestamp of a kind. *)
Definition stamp (kind : EventKind) (now : float) (o : AlertWatcher)
    : AlertWatcher :=
  match kind with
  | Failover _ => set_last_failover_alert now o
  | PoolRecovery _ | ErrorRecovery => set_last_recovery_alert now o
  | ErrorRate => set_last_error_rate_alert now o
  end.

(** The degraded flag a handler leaves when its alert goes out. *)
Definition degraded_after (kind : EventKind) (o : AlertWatcher) : bool :=
  match kind with
  | ErrorRate => true
  | ErrorRecovery => false
  | Failover _ | PoolRecovery _ => system_degraded o
  end.

(** The events a method tells apart. *)
Definition siblings (kind : EventKind) : list EventKind :=
  match kind with
  | Failover pool | PoolRecovery pool => [Failover pool; PoolRecovery pool]
  | ErrorRate | ErrorRecovery => [ErrorRate; ErrorRecovery]
  end.

(** The worlds in which [process_log_line] calls [detect_failover] (when the
    line has a pool) and [check_error_rate]. *)
Definition at_detect (log_entry : LogEntry) (w : World) : World :=
  exec (track_request cfg log_entry) w.

Definition at_check (log_entry : LogEntry) (w : World) : World :=
  exec (detect_pool cfg clock webhook_ok log_entry) (at_detect log_entry w).

(** The outcome of the cooldown check a handler makes first in [w]. *)
Definition allowed (kind : EventKind) (w : World) : bool :=
  cooldown_over cfg (clock (clock_reads w)) (timer kind (self w)).

(** The time between a reading of the clock and a timestamp is under the
    cooldown. *)
Definition within_cooldown (current_time last_alert_time : float) : bool :=
  Py.float_lt_int (PrimFloat.sub current_time last_alert_time)
    (alert_cooldown_sec cfg).

(** The alert the handler of a kind builds in a watcher [o]: title, text and
    colour. *)
Definition alert_of (kind : EventKind) (o : AlertWatcher)
    : string * Message * string :=
  match kind with
  | Failover pool =>
      (failover_title,
       FailoverMessage (last_pool o) pool (total_requests o)
         (failover_count o + 1),
       "warning")
  | PoolRecovery pool =>
      (recovery_title,
       PoolRecoveryMessage (last_pool o) pool (total_requests o)
         (failover_count o + 1),
       "good")
  | ErrorRate =>
      (error_rate_title,
       HighErrorRateMessage (calculate_error_rate o) (error_rate_threshold cfg)
         (count_errors 0 (request_window o)) (len (request_window o))
         (last_pool o) (total_requests o),
       "danger")
  | ErrorRecovery =>
      (recovery_title,
       SystemRecoveryMessage (last_pool o) (calculate_error_rate o)
         (error_rate_threshold cfg) (total_requests o) (failover_count o),
       "good")
  end.

(** What [send_slack_alert] emits, from the maintenance flag and the
    number of POSTs made before. *)
Definition alert_events (maintenance : bool) (posted : nat)
    (title : string) (message : Message) (color : string) : list Event :=
  if maintenance then [Logged "MAINTENANCE" (AlertSuppressed title)]
  else if webhook_unset cfg then [Logged "ALERT" (AlertPrinted title message)]
  else [Posted (get (slack_webhook_url cfg) "") title message color;
        if webhook_ok posted then Logged "INFO" (AlertSent title)
        else Logged "ERROR" AlertFailed].

(** What the handler of a kind logs when the cooldown holds its alert back. *)
Definition suppressed_events (kind : EventKind) (o : AlertWatcher)
    : list Event :=
  match kind with
  | Failover pool =>
      [Logged "INFO" (FailoverCooldownActive (last_pool o) pool)]
  | PoolRecovery pool =>
      [Logged "INFO" (RecoveryCooldownActive (last_pool o) pool)]
  | ErrorRate => []
  | ErrorRecovery => [Logged "INFO" SystemRecoveryCooldownActive]
  end.

(** What the handler of a kind emits when its alert goes out from [w]. The
    recovery paths clear the maintenance flag before they dispatch. *)
Definition fired_events (kind : EventKind) (w : World) : list Event :=
  let '(title, message, color) := alert_of kind (self w) in
  if is_recovery kind then
    ((if maintenance_mode (self w) then [Logged "INFO" MaintenanceDisabled]
      else [])
     ++ alert_events false (posts w) title message color)%list
  else alert_events (maintenance_mode (self w)) (posts w) title message color.

End Kinds.

(** ** A deployment to run the watcher on *)

Module Scenario.

(** Blue is the initial pool; the window holds three outcomes, the threshold
    is 2 per cent and the cooldown five minutes. *)
Definition cfg : Config := {|
  slack_webhook_url := Some "https://hooks.example/services/T";
  initial_pool := "blue";
  error_rate_threshold := 2%float;
  window_size := 3;
  alert_cooldown_sec := 300
|}.

(** A clock that shows 1000 seconds at the first reading and one second more
    at each reading after. *)
Definition clock (n : nat) : float :=
  PrimFloat.add 1000%float (Py.float_of_int (Z.of_nat n)).

(** A webhook that accepts every POST. *)
Definition webhook_ok (n : nat) : bool := true.

Definition world (o : AlertWatcher) (reads : nat) : World :=
  {| self := o; clock_reads := reads; posts := 0; emitted := [] |}.

(** Traffic on green, maintenance mode on. *)
Definition on_green : AlertWatcher :=
  set_last_pool "green" (init cfg true).

(** Traffic on blue, a failover alert sent at 900 seconds. *)
Definition after_failover_alert : AlertWatcher :=
  set_last_failover_alert 900%float (init cfg false).

(** Degraded, maintenance mode on, the window back to three good outcomes. *)
Definition degraded_and_healthy_again : AlertWatcher :=
  set_system_degraded true
    (set_request_window [200; 200; 200] (init cfg true)).

(** The same, once the recovery timestamp has taken the second reading of
    the clock. *)
Definition degraded_after_pool_recovery : AlertWatcher :=
  set_last_recovery_alert (clock 1)
    (set_maintenance_mode false degraded_and_healthy_again).

(** Not degraded, an error-rate alert sent at 900 seconds, the window full
    of errors. *)
Definition failing_within_cooldown : AlertWatcher :=
  set_last_error_rate_alert 900%float
    (set_request_window [500; 500; 500] (init cfg false)).

(** The same watcher with the window back to three good outcomes. *)
Definition healthy_again : AlertWatcher :=
  set_request_window [200; 200; 200] failing_within_cooldown.

(** One error among three outcomes. *)
Definition one_error_in_three : AlertWatcher :=
  set_request_window [500; 200; 200] (init cfg false).

Definition entry (status : Z) (pool upstream_status : string) : LogEntry :=
  {| entry_status := Some status; entry_pool := Some pool;
     entry_upstream_status := Some upstream_status |}.

Definition four_lines : list LogEntry :=
  [entry 200 "blue" "200"; entry 200 "blue" "502, 200";
   entry 404 "blue" "404"; entry 500 "blue" "500"].

End Scenario.

(** ** The object a handler leaves *)

(** [if self.maintenance_mode: self.maintenance_mode = False] *)
Definition clear_maintenance (o : AlertWatcher) : AlertWatcher :=
  if maintenance_mode o then set_maintenance_mode false o else o.

(** The assignments of [detect_failover] before its cooldown check. *)
Definition switch_pool (pool : string) (o : AlertWatcher) : AlertWatcher :=
  set_failover_count (failover_count o + 1) (set_last_pool pool o).

(** The object after a handler whose cooldown check failed. *)
Definition suppressed_object (kind : EventKind) (o : AlertWatcher)
    : AlertWatcher :=
  match kind with
  | Failover pool | PoolRecovery pool => switch_pool pool o
  | ErrorRate | ErrorRecovery => o
  end.

(** The object after a handler whose alert went out, [now] being the
    reading of the clock it assigns. *)
Definition fired_object (kind : EventKind) (now : float) (o : AlertWatcher)
    : AlertWatcher :=
  match kind with
  | Failover pool => set_last_failover_alert now (switch_pool pool o)
  | PoolRecovery pool =>
      set_last_recovery_alert now (clear_maintenance (switch_pool pool o))
  | ErrorRate => set_system_degraded true (set_last_error_rate_alert now o)
  | ErrorRecovery =>
      set_last_recovery_alert now
        (clear_maintenance (set_system_degraded false o))
  end.

(** The number of POSTs [send_slack_alert] makes: none in maintenance mode
    or without a webhook, one otherwise. *)
Definition posts_made (cfg : Config) (maintenance : bool) : nat :=
  if maintenance || webhook_unset cfg then 0 else 1.

(** The maintenance flag [send_slack_alert] finds when the handler of a kind
    dispatches from [o]. *)
Definition maintenance_at_dispatch (kind : EventKind) (o : AlertWatcher)
    : bool :=
  if is_recovery kind then false else maintenance_mode o.

(** The pool labels of a list of lines, empty ones left out, in order. *)
Definition pool_labels (entries : list LogEntry) : list string :=
  filter (fun pool => negb (Py.is_empty pool))
    (map (fun log_entry => get (entry_pool log_entry) "") entries).

(** How often the label changes along a list of labels that starts after
    [last]. *)
Fixpoint label_changes (last : string) (labels : list string) : Z :=
  match labels with
  | [] => 0
  | pool :: rest =>
      (if (pool =? last)%string then 0 else 1) + label_changes pool rest
  end.

(** Two configurations that differ at most in the webhook. *)
Definition same_detection (cfg cfg' : Config) : Prop :=
  initial_pool cfg = initial_pool cfg'
  /\ error_rate_threshold cfg = error_rate_threshold cfg'
  /\ window_size cfg = window_size cfg'
  /\ alert_cooldown_sec cfg = alert_cooldown_sec cfg'.

(** Two objects that differ at most in the maintenance flag. *)
Definition same_but_maintenance (o o' : AlertWatcher) : Prop :=
  set_maintenance_mode false o = set_maintenance_mode false o'.

(** The object and the count of clock readings a call of a handler leaves,
    from those it finds: the first event of the method that arises is
    checked against its cooldown. *)
Definition call_result (cfg : Config) (clock : nat -> float)
    (kind : EventKind) (o : AlertWatcher) (reads : nat)
    : AlertWatcher * nat :=
  match filter (fun kind' => arises cfg kind' o) (siblings kind) with
  | kind' :: _ =>
      if cooldown_over cfg (clock reads) (timer kind' o)
      then (fired_object kind' (clock (S reads)) o, S (S reads))
      else (suppressed_object kind' o, S reads)
  | [] => (o, reads)
  end.

(** An alert of a high error rate, however dispatched. *)
Definition about_high_error_rate (e : Event) : bool :=
  match e with
  | Posted _ title _ _ => (title =? error_rate_title)%string
  | Logged _ (AlertSuppressed title) => (title =? error_rate_title)%string
  | Logged _ (AlertPrinted title _) => (title =? error_rate_title)%string
  | Logged _ _ => false
  end.

(** The object after the first part of [process_log_line]. *)
Definition tracked (cfg : Config) (log_entry : LogEntry) (o : AlertWatcher)
    : AlertWatcher :=
  let counted := set_total_requests (total_requests o + 1) o in
  set_request_window
    (push cfg (effective_status log_entry) (request_window counted)) counted.

(** The object and the count of clock readings after a line, and after a
    list of lines. *)
Definition line_result (cfg : Config) (clock : nat -> float)
    (log_entry : LogEntry) (state : AlertWatcher * nat)
    : AlertWatcher * nat :=
  let pool := get (entry_pool log_entry) "" in
  let o := tracked cfg log_entry (fst state) in
  let detected :=
    if negb (Py.is_empty pool)
    then call_result cfg clock (Failover pool) o (snd state)
    else (o, snd state) in
  call_result cfg clock ErrorRate (fst detected) (snd detected).

Definition run_result (cfg : Config) (clock : nat -> float)
    (entries : list LogEntry) (state : AlertWatcher * nat)
    : AlertWatcher * nat :=
  fold_left (fun state log_entry => line_result cfg clock log_entry state)
    entries state.

(** The objects and counts of clock readings that differ at most in the
    maintenance flag. *)
Definition alike (state state' : AlertWatcher * nat) : Prop :=
  same_but_maintenance (fst state) (fst state') /\ snd state = snd state'.

(** A deployment whose window size is zero. *)
Module Unbounded.

Definition cfg : Config := {|
  slack_webhook_url := None;
  initial_pool := "blue";
  error_rate_threshold := 2%float;
  window_size := 0;
  alert_cooldown_sec := 300
|}.

End Unbounded.

(** ** Startup *)

Module Startup.

(** [str.lower] on one character, for the code points below 256: the capital
    letters A to Z and the accented capitals (192 to 222, the multiplication
    sign left out) move up by 32. *)
Definition lower_char (c : ascii) : ascii :=
  let n := N_of_ascii c in
  if ((65 <=? n) && (n <=? 90)
      || (192 <=? n) && (n <=? 222) && negb (n =? 215))%N
  then ascii_of_N (n + 32)
  else c.

(** [s.lower()] *)
Fixpoint lower (s : string) : string :=
  match s with
  | EmptyString => EmptyString
  | String c r => String (lower_char c) (lower r)
  end.

(** The text of a [log] call of [__init__] or [send_startup_alert]. *)
Inductive StartupText :=
| WatcherInitialized
| InitialPoolIs (pool : string)
| ThresholdIs (threshold : float)
| WindowSizeIs (size : Z)
| CooldownIs (seconds : Z)
| MaintenanceModeIs (on : bool)
| WebhookNotSet
| StartupAlertSent
| StartupAlertFailed.

(** A [log] call, or the [requests.post] of the startup notice with the
    values its text interpolates. *)
Inductive StartupEvent :=
| StartupLogged (level : string) (text : StartupText)
| StartupPosted (url : option string) (title : string) (threshold : float)
    (size cooldown : Z) (color : string).

Definition is_startup_post (e : StartupEvent) : bool :=
  match e with
  | StartupPosted _ _ _ _ _ _ => true
  | StartupLogged _ _ => false
  end.

Definition startup_title : string := ":information_source: - Log Watcher Started".

Section Init.

(** [os.getenv], the interpreter's [float] on a string ([None] for
    [ValueError]), and whether the POST of the startup notice goes
    through. *)
Variable getenv : string -> option string.
Variable float_of_string : string -> option float.
Variable post_ok : bool.

(** [send_startup_alert]: the POST is attempted whatever the maintenance
    flag says. *)
Definition send_startup_alert (cfg : Config) : bool * list StartupEvent :=
  (post_ok,
   [StartupPosted (slack_webhook_url cfg) startup_title
      (error_rate_threshold cfg) (window_size cfg) (alert_cooldown_sec cfg)
      "information";
    if post_ok then StartupLogged "INFO" StartupAlertSent
    else StartupLogged "ERROR" StartupAlertFailed]).

(** [os.getenv("MAINTENANCE_MODE", "False").lower() == "true"] *)
Definition read_maintenance_mode : bool :=
  (lower (get (getenv "MAINTENANCE_MODE") "False") =? "true")%string.

(** [__init__]: the configuration, the object and what was logged and
    posted; [None] when [float] or [int] raises on a variable. *)
Definition __init__ : option (Config * AlertWatcher * list StartupEvent) :=
  match float_of_string (get (getenv "ERROR_RATE_THRESHOLD") "2") with
  | None => None
  | Some threshold =>
      match Py.int (get (getenv "WINDOW_SIZE") "200") with
      | None => None
      | Some size =>
          match Py.int (get (getenv "ALERT_COOLDOWN_SEC") "300") with
          | None => None
          | Some cooldown =>
              let cfg :=
                {| slack_webhook_url := getenv "SLACK_WEBHOOK_URL";
                   initial_pool := get (getenv "ACTIVE_POOL") "blue";
                   error_rate_threshold := threshold;
                   window_size := size;
                   alert_cooldown_sec := cooldown |} in
              let maintenance := read_maintenance_mode in
              Some (cfg, init cfg maintenance,
                    ([StartupLogged "INFO" WatcherInitialized;
                      StartupLogged "INFO" (InitialPoolIs (initial_pool cfg));
                      StartupLogged "INFO" (ThresholdIs threshold);
                      StartupLogged "INFO" (WindowSizeIs size);
                      StartupLogged "INFO" (CooldownIs cooldown);
                      StartupLogged "INFO" (MaintenanceModeIs maintenance)]
                     ++ (if webhook_unset cfg
                         then [StartupLogged "WARNING" WebhookNotSet]
                         else snd (send_startup_alert cfg)))%list)
          end
      end
  end.

End Init.

(** An environment with a webhook and maintenance mode on, and one with
    nothing set. *)
Definition maintenance_env (name : string) : option string :=
  if (name =? "SLACK_WEBHOOK_URL")%string
  then Some "https://hooks.example/services/T"
  else if (name =? "MAINTENANCE_MODE")%string then Some "TRUE"
  else None.

Definition empty_env (name : string) : option string := None.

(** A stand-in for [float] that reads the default threshold only. *)
Definition float_of_default (s : string) : option float :=
  if (s =? "2")%string then Some 2%float else None.

End Startup.

(** * Properties *)

(** ** Classification of a log entry *)

Lemma scan_upstream_existsb (upstream_statuses : list string) :
  scan_upstream upstream_statuses = existsb upstream_failure upstream_statuses.
Proof.
  induction upstream_statuses as [|us rest IH]; simpl; [reflexivity|].
  unfold upstream_failure at 1.
  destruct (Py.int (Py.strip us)) as [us_code|]; simpl; [|exact IH].
  destruct (500 <=? us_code); simpl; [reflexivity | exact IH].
Qed.

Lemma has_upstream_error_existsb (upstream_status_str : string) :
  has_upstream_error upstream_status_str
  = existsb upstream_failure (Py.split ", " upstream_status_str).
Proof.
  unfold has_upstream_error.
  destruct upstream_status_str as [|c r]; [reflexivity|].
  cbn [Py.is_empty]. apply scan_upstream_existsb.
Qed.

(** C2: the outcome appended for a log entry is 502 when some piece of its
    [upstream_status], cut at [", "], converts to an integer of 500 or more,
    whatever its [status]; otherwise it is the [status] itself, 0 when the
    entry has none. Pieces that do not convert count for nothing. *)
Theorem effective_status_classifies (log_entry : LogEntry) :
  effective_status log_entry
  = if existsb upstream_failure
         (Py.split ", " (get (entry_upstream_status log_entry) ""))
    then 502
    else get (entry_status log_entry) 0.
Proof.
  unfold effective_status.
  rewrite has_upstream_error_existsb. reflexivity.
Qed.

Example effective_status_retry :
  effective_status {| entry_status := Some 200; entry_pool := Some "blue";
                      entry_upstream_status := Some "502, 200" |} = 502.
Proof. reflexivity. Qed.

Example effective_status_skips_malformed :
  effective_status {| entry_status := Some 404; entry_pool := None;
                      entry_upstream_status := Some "-, abc, 200" |} = 404.
Proof. reflexivity. Qed.

(** *** Commas without a space *)

Lemma split_without_separator (sep s : string) :
  Py.occurs sep s = false -> Py.split sep s = [s].
Proof.
  unfold Py.split.
  induction s as [|c r IH]; intros Hocc; [reflexivity|].
  cbn [Py.occurs] in Hocc. apply orb_false_iff in Hocc as [Hpre Hrest].
  cbn [Py.split_from]. rewrite Hpre, (IH Hrest). reflexivity.
Qed.

Lemma contains_lstrip (c : ascii) (s : string) :
  Py.isspace c = false -> contains c s = true ->
  contains c (Py.lstrip s) = true.
Proof.
  intros Hc. induction s as [|d r IH]; intros Hs; [discriminate|].
  cbn [Py.lstrip]. destruct (Py.isspace d) eqn:Hd; [|exact Hs].
  apply IH. cbn [contains] in Hs.
  destruct (Ascii.eqb d c) eqn:Heq; [|exact Hs].
  apply Ascii.eqb_eq in Heq. congruence.
Qed.

Lemma contains_rstrip (c : ascii) (s : string) :
  Py.isspace c = false -> contains c s = true ->
  contains c (Py.rstrip s) = true.
Proof.
  intros Hc. induction s as [|d r IH]; intros Hs; [discriminate|].
  cbn [Py.rstrip contains] in *.
  destruct (Ascii.eqb d c) eqn:Heq.
  - apply Ascii.eqb_eq in Heq. subst d. rewrite Hc. cbn.
    rewrite Ascii.eqb_refl. reflexivity.
  - cbn in Hs. specialize (IH Hs).
    destruct (Py.isspace d && Py.is_empty (Py.rstrip r)) eqn:Hdrop.
    + apply andb_true_iff in Hdrop as [_ Hempty].
      destruct (Py.rstrip r); [discriminate IH | discriminate Hempty].
    + cbn. rewrite Heq. exact IH.
Qed.

Lemma contains_strip (c : ascii) (s : string) :
  Py.isspace c = false -> contains c s = true ->
  contains c (Py.strip s) = true.
Proof.
  intros Hc Hs. unfold Py.strip.
  apply contains_rstrip; [exact Hc|]. apply contains_lstrip; assumption.
Qed.

Lemma digits_reject (c : ascii) (s : string) :
  Py.digit_value c = None -> Ascii.eqb c "_"%char = false ->
  contains c s = true ->
  forall acc after_digit, Py.digits acc after_digit s = None.
Proof.
  intros Hdig Hund. induction s as [|d r IH]; intros Hs acc after_digit;
    [discriminate|].
  cbn [contains] in Hs. cbn [Py.digits].
  destruct (Ascii.eqb d c) eqn:Heq.
  - apply Ascii.eqb_eq in Heq. subst d. rewrite Hdig, Hund. reflexivity.
  - cbn in Hs. destruct (Py.digit_value d); [apply IH; exact Hs|].
    destruct (Ascii.eqb d "_"%char); [|reflexivity].
    destruct after_digit; [apply IH; exact Hs | reflexivity].
Qed.

Lemma int_rejects_comma (s : string) :
  contains ","%char s = true -> Py.int s = None.
Proof.
  intros Hs. unfold Py.int.
  assert (Hstrip : contains ","%char (Py.strip s) = true)
    by (apply contains_strip; [reflexivity | exact Hs]).
  assert (Hrej : forall t, contains ","%char t = true ->
                           Py.digits 0 false t = None)
    by (intros t Ht; apply digits_reject with (c := ","%char);
        [reflexivity | reflexivity | exact Ht]).
  destruct (Py.strip s) as [|d r] eqn:Hd; [discriminate|].
  destruct (Ascii.eqb d "+"%char) eqn:Hplus.
  - apply Ascii.eqb_eq in Hplus. subst d. cbn in Hstrip.
    rewrite (Hrej r Hstrip). reflexivity.
  - destruct (Ascii.eqb d "-"%char) eqn:Hminus.
    + apply Ascii.eqb_eq in Hminus. subst d. cbn in Hstrip.
      rewrite (Hrej r Hstrip). reflexivity.
    + transitivity (Py.digits 0 false (String d r)); [|apply Hrej, Hstrip].
      destruct d as [[] [] [] [] [] [] [] []]; try reflexivity;
        discriminate.
Qed.

(** C10: when the [upstream_status] of an entry has a comma and nowhere a
    comma followed by a space, cutting at [", "] leaves it in one piece, the
    piece does not convert to an integer, and the outcome appended is the
    entry's own [status], whatever codes the string spells. *)
Theorem comma_without_space_keeps_status
    (log_entry : LogEntry) (upstream_status_str : string) :
  entry_upstream_status log_entry = Some upstream_status_str ->
  contains ","%char upstream_status_str = true ->
  Py.occurs ", " upstream_status_str = false ->
  Py.split ", " upstream_status_str = [upstream_status_str]
  /\ Py.int (Py.strip upstream_status_str) = None
  /\ effective_status log_entry = get (entry_status log_entry) 0.
Proof.
  intros Hfield Hcomma Hnosep.
  pose proof (split_without_separator _ _ Hnosep) as Hsplit.
  assert (Hint : Py.int (Py.strip upstream_status_str) = None)
    by (apply int_rejects_comma, contains_strip; [reflexivity | exact Hcomma]).
  repeat split; try assumption.
  unfold effective_status. rewrite has_upstream_error_existsb, Hfield.
  cbn [get]. rewrite Hsplit. cbn [existsb]. unfold upstream_failure.
  rewrite Hint. reflexivity.
Qed.

Lemma comma_without_space_keeps_status_witness :
  Py.split ", " "502,200" = ["502,200"]
  /\ Py.int (Py.strip "502,200") = None
  /\ effective_status {| entry_status := Some 200; entry_pool := Some "blue";
                         entry_upstream_status := Some "502,200" |} = 200.
Proof.
  apply (comma_without_space_keeps_status
           {| entry_status := Some 200; entry_pool := Some "blue";
              entry_upstream_status := Some "502,200" |} "502,200");
    reflexivity.
Defined.

(** ** Running the methods *)

Ltac use_tests :=
  repeat match goal with
         | H : ?b = true |- context [?b] => rewrite H
         | H : ?b = false |- context [?b] => rewrite H
         end.

Ltac run :=
  unfold handler, detect_failover, check_error_rate, send_slack_alert,
    check_cooldown, requests_post, time_time, log, emit, assign, read,
    bind, ret, exec, eval;
  cbn [self clock_reads posts emitted fst snd].

Lemma added_app (before after : World) (events : list Event) :
  emitted after = (emitted before ++ events)%list ->
  added before after = events.
Proof.
  intros Hafter. unfold added.
  rewrite Hafter, skipn_app, skipn_all, Nat.sub_diag. reflexivity.
Qed.

Lemma minimum_requests_min (cfg : Config) :
  minimum_requests cfg = Z.min 50 (window_size cfg).
Proof.
  unfold minimum_requests.
  destruct (window_size cfg <? 50) eqn:H; lia.
Qed.

(** A float under an integer is not at or over it. *)
Lemma float_lt_not_ge (x : float) (z : Z) :
  Py.float_lt_int x z = true -> Py.float_ge_int x z = false.
Proof.
  unfold Py.float_lt_int, Py.float_ge_int, Py.exact.
  destruct (Prim2SF x) as [neg|neg| |neg m e].
  - intros H. apply Z.ltb_lt in H. apply Z.leb_gt. exact H.
  - intros ->. reflexivity.
  - discriminate.
  - destruct (e <? 0); intros H; apply Z.ltb_lt in H; apply Z.leb_gt; exact H.
Qed.

Section MethodFacts.

Variable cfg : Config.
Variable clock : nat -> float.
Variable webhook_ok : nat -> bool.


(** C7: while the window holds fewer than [min(50, window_size)] outcomes,
    [check_error_rate] answers [False] and leaves the world as it found
    it: no attribute assigned, no reading of the clock, nothing logged or
    posted. *)
Theorem check_error_rate_below_minimum (w : World) :
  len (request_window (self w)) < Z.min 50 (window_size cfg) ->
  check_error_rate cfg clock webhook_ok w = (false, w).
Proof.
  intros Hlen. rewrite <- minimum_requests_min in Hlen.
  apply Z.ltb_lt in Hlen. run. rewrite Hlen. reflexivity.
Qed.

Ltac split_tests H :=
  repeat (apply andb_true_iff in H as [H ?]);
  repeat match goal with
         | T : negb _ = true |- _ => apply negb_true_iff in T
         end.

(** A handler whose cooldown check fails: it answers [False], dispatches
    nothing and leaves the three timestamps, the maintenance flag, the
    degraded flag and the window as they were. *)
Lemma handler_suppressed (kind : EventKind) (w : World) :
  arises cfg kind (self w) = true ->
  allowed cfg clock kind w = false ->
  let w' := exec (handler cfg clock webhook_ok kind) w in
  eval (handler cfg clock webhook_ok kind) w = false
  /\ last_failover_alert (self w') = last_failover_alert (self w)
  /\ last_error_rate_alert (self w') = last_error_rate_alert (self w)
  /\ last_recovery_alert (self w') = last_recovery_alert (self w)
  /\ maintenance_mode (self w') = maintenance_mode (self w)
  /\ system_degraded (self w') = system_degraded (self w)
  /\ request_window (self w') = request_window (self w)
  /\ last_pool (self w') = pool_after kind (self w)
  /\ failover_count (self w') = failover_count_after kind (self w)
  /\ emitted w' = (emitted w ++ suppressed_events kind (self w))%list
  /\ clock_reads w' = S (clock_reads w)
  /\ posts w' = posts w.
Proof.
  unfold allowed, timer, read_timestamp, timestamp_of, suppressed_events.
  destruct kind as [pool|pool| |]; cbn [arises]; intros Harises Hcool;
    split_tests Harises; unfold returns_to_initial in *;
    run; use_tests; cbn; use_tests; cbn;
    repeat split; try reflexivity; symmetry; apply app_nil_r.
Qed.

(** A handler whose cooldown check passes: it answers [True], emits what
    [fired_events] lists, and assigns the next reading of the clock to the
    timestamp of its kind, and to no other. *)
Lemma handler_fired (kind : EventKind) (w : World) :
  arises cfg kind (self w) = true ->
  allowed cfg clock kind w = true ->
  let w' := exec (handler cfg clock webhook_ok kind) w in
  let stamped := stamp kind (clock (S (clock_reads w))) (self w) in
  eval (handler cfg clock webhook_ok kind) w = true
  /\ last_failover_alert (self w') = last_failover_alert stamped
  /\ last_error_rate_alert (self w') = last_error_rate_alert stamped
  /\ last_recovery_alert (self w') = last_recovery_alert stamped
  /\ maintenance_mode (self w')
     = (if is_recovery kind then false else maintenance_mode (self w))
  /\ system_degraded (self w') = degraded_after kind (self w)
  /\ request_window (self w') = request_window (self w)
  /\ last_pool (self w') = pool_after kind (self w)
  /\ failover_count (self w') = failover_count_after kind (self w)
  /\ emitted w' = (emitted w ++ fired_events cfg webhook_ok kind w)%list
  /\ clock_reads w' = S (S (clock_reads w)).
Proof.
  unfold allowed, timer, read_timestamp, timestamp_of, fired_events,
    alert_events.
  destruct kind as [pool|pool| |]; cbn [arises alert_of is_recovery];
    intros Harises Hcool;
    split_tests Harises; unfold returns_to_initial in *;
    run; use_tests; cbn; use_tests; cbn;
    destruct (maintenance_mode (self w)) eqn:Hmaintenance; cbn;
    use_tests; cbn;
    destruct (webhook_unset cfg); cbn;
    try destruct (webhook_ok (posts w)); cbn;
    repeat split; try reflexivity; try assumption;
    rewrite <- ?app_assoc; reflexivity.
Qed.

(** Where no event arises the methods answer [False] and touch nothing. *)
Lemma detect_failover_idle (pool : string) (w : World) :
  arises cfg (Failover pool) (self w) = false ->
  arises cfg (PoolRecovery pool) (self w) = false ->
  detect_failover cfg clock webhook_ok pool w = (false, w).
Proof.
  cbn [arises]. unfold returns_to_initial. intros Hfail Hrec. run.
  destruct (Py.is_empty pool); [reflexivity|].
  cbn [negb andb] in Hfail, Hrec. rewrite Hrec in *. cbn [negb andb] in Hfail.
  apply negb_false_iff in Hfail. rewrite Hfail. reflexivity.
Qed.

Lemma check_error_rate_idle (w : World) :
  arises cfg ErrorRate (self w) = false ->
  arises cfg ErrorRecovery (self w) = false ->
  check_error_rate cfg clock webhook_ok w = (false, w).
Proof.
  cbn [arises]. intros Hrate Hrec. run.
  destruct (len (request_window (self w)) <? minimum_requests cfg);
    [reflexivity|].
  cbn [negb andb] in Hrate, Hrec. rewrite Hrate in *. cbn [negb andb] in Hrec.
  rewrite Hrec. reflexivity.
Qed.

Lemma alert_events_one_dispatch (maintenance : bool) (posted : nat)
    (title : string) (message : Message) (color : string) :
  List.length
    (filter is_dispatch
       (alert_events cfg webhook_ok maintenance posted title message color))
  = 1%nat.
Proof.
  unfold alert_events.
  destruct maintenance; [reflexivity|].
  destruct (webhook_unset cfg); [reflexivity|].
  destruct (webhook_ok posted); reflexivity.
Qed.

Lemma failover_arises (pool : string) (o : AlertWatcher) :
  Py.is_empty pool = false ->
  pool <> last_pool o ->
  ~ (pool = initial_pool cfg /\ last_pool o <> initial_pool cfg) ->
  arises cfg (Failover pool) o = true.
Proof.
  intros Hpool Hchange Hreturn. cbn [arises]. unfold returns_to_initial.
  rewrite Hpool. apply String.eqb_neq in Hchange. rewrite Hchange.
  cbn [negb andb]. rewrite andb_true_r. apply negb_true_iff.
  destruct (String.eqb_spec pool (initial_pool cfg)) as [Hinit|];
    [|reflexivity].
  destruct (String.eqb_spec (last_pool o) (initial_pool cfg)) as [|Hlast];
    [reflexivity|].
  exfalso. apply Hreturn. split; assumption.
Qed.

Lemma pool_recovery_arises (pool : string) (o : AlertWatcher) :
  Py.is_empty pool = false ->
  pool = initial_pool cfg ->
  last_pool o <> initial_pool cfg ->
  arises cfg (PoolRecovery pool) o = true.
Proof.
  intros Hpool Hinit Hlast. cbn [arises]. unfold returns_to_initial.
  rewrite Hpool. apply String.eqb_eq in Hinit. rewrite Hinit.
  apply String.eqb_neq in Hlast. rewrite Hlast. reflexivity.
Qed.

(** ** The failover detector *)

(** C3: when the pool of a line is the initial pool and the watcher's current
    pool is another one, whichever it is, [detect_failover] treats the line
    as a recovery: the current pool becomes the initial pool, the count of
    pool changes goes up by one, the check is made against the recovery
    timestamp, and what is emitted speaks of a recovery (the alert, or the
    note that the cooldown held it back). Nothing of a failover happens: no
    failover alert or note, and the failover timestamp stays. *)
Theorem return_to_initial_is_recovery (pool : string) (w : World) :
  Py.is_empty pool = false ->
  pool = initial_pool cfg ->
  last_pool (self w) <> initial_pool cfg ->
  let fires :=
    cooldown_over cfg (clock (clock_reads w)) (last_recovery_alert (self w)) in
  let w' := exec (detect_failover cfg clock webhook_ok pool) w in
  eval (detect_failover cfg clock webhook_ok pool) w = fires
  /\ last_pool (self w') = initial_pool cfg
  /\ failover_count (self w') = failover_count (self w) + 1
  /\ existsb about_pool_recovery (added w w') = true
  /\ existsb about_failover (added w w') = false
  /\ last_failover_alert (self w') = last_failover_alert (self w)
  /\ last_recovery_alert (self w')
     = (if fires then clock (S (clock_reads w))
        else last_recovery_alert (self w)).
Proof.
  intros Hpool Hinit Hlast. cbv zeta.
  pose proof (pool_recovery_arises pool (self w) Hpool Hinit Hlast) as Harises.
  destruct (cooldown_over cfg (clock (clock_reads w))
              (last_recovery_alert (self w))) eqn:Hfires.
  - pose proof (handler_fired (PoolRecovery pool) w Harises Hfires) as Hrun.
    cbv zeta in Hrun. cbn [handler] in Hrun.
    destruct Hrun
      as (Heval & Hfail & _ & Hrec & _ & _ & _ & Hlast' & Hcount & Hadded & _).
    apply added_app in Hadded.
    rewrite Heval, Hlast', Hcount, Hadded, Hfail, Hrec.
    repeat split; try reflexivity; try assumption;
      unfold fired_events, alert_events; cbn [alert_of is_recovery];
      destruct (maintenance_mode (self w)); destruct (webhook_unset cfg);
      try destruct (webhook_ok (posts w)); reflexivity.
  - pose proof (handler_suppressed (PoolRecovery pool) w Harises Hfires)
      as Hrun.
    cbv zeta in Hrun. cbn [handler] in Hrun.
    destruct Hrun
      as (Heval & Hfail & _ & Hrec & _ & _ & _ & Hlast' & Hcount & Hadded & _).
    apply added_app in Hadded.
    rewrite Heval, Hlast', Hcount, Hadded, Hfail, Hrec.
    repeat split; try reflexivity; assumption.
Qed.

(** C4: a failover (the pool of the line differs from the current pool and
    is not a return to the initial pool) always makes the pool of the line
    the current pool and raises the count of pool changes by one. With the
    failover cooldown not over, no alert is dispatched, the answer is
    [False] and the failover timestamp stays; with the cooldown over,
    exactly one alert is dispatched, the answer is [True] and the failover
    timestamp takes the next reading of the clock. *)
Theorem failover_cooldown_gate (pool : string) (w : World) :
  Py.is_empty pool = false ->
  pool <> last_pool (self w) ->
  ~ (pool = initial_pool cfg /\ last_pool (self w) <> initial_pool cfg) ->
  let fires :=
    cooldown_over cfg (clock (clock_reads w)) (last_failover_alert (self w)) in
  let w' := exec (detect_failover cfg clock webhook_ok pool) w in
  last_pool (self w') = pool
  /\ failover_count (self w') = failover_count (self w) + 1
  /\ eval (detect_failover cfg clock webhook_ok pool) w = fires
  /\ List.length (filter is_dispatch (added w w'))
     = (if fires then 1 else 0)%nat
  /\ existsb is_delivery (added w w')
     = fires && negb (maintenance_mode (self w)) && negb (webhook_unset cfg)
  /\ last_failover_alert (self w')
     = (if fires then clock (S (clock_reads w))
        else last_failover_alert (self w)).
Proof.
  intros Hpool Hchange Hreturn. cbv zeta.
  pose proof (failover_arises pool (self w) Hpool Hchange Hreturn) as Harises.
  destruct (cooldown_over cfg (clock (clock_reads w))
              (last_failover_alert (self w))) eqn:Hfires.
  - pose proof (handler_fired (Failover pool) w Harises Hfires) as Hrun.
    cbv zeta in Hrun. cbn [handler] in Hrun.
    destruct Hrun
      as (Heval & Hfail & _ & _ & _ & _ & _ & Hlast' & Hcount & Hadded & _).
    apply added_app in Hadded.
    rewrite Heval, Hlast', Hcount, Hadded, Hfail.
    unfold fired_events. cbn [alert_of is_recovery].
    rewrite alert_events_one_dispatch.
    repeat split; try reflexivity. unfold alert_events.
    destruct (maintenance_mode (self w)); destruct (webhook_unset cfg);
      try destruct (webhook_ok (posts w)); reflexivity.
  - pose proof (handler_suppressed (Failover pool) w Harises Hfires) as Hrun.
    cbv zeta in Hrun. cbn [handler] in Hrun.
    destruct Hrun
      as (Heval & Hfail & _ & _ & _ & _ & _ & Hlast' & Hcount & Hadded & _).
    apply added_app in Hadded.
    rewrite Heval, Hlast', Hcount, Hadded, Hfail.
    repeat split; reflexivity.
Qed.

(** ** Cooldowns *)

(** A handler that reaches the cooldown check of its event and sees it fail
    answers [False] and leaves the three timestamps as they were. *)
Lemma suppressed_call_keeps_timestamps (kind : EventKind) (w : World) :
  arises cfg kind (self w) = true ->
  allowed cfg clock kind w = false ->
  let w' := exec (handler cfg clock webhook_ok kind) w in
  eval (handler cfg clock webhook_ok kind) w = false
  /\ last_failover_alert (self w') = last_failover_alert (self w)
  /\ last_error_rate_alert (self w') = last_error_rate_alert (self w)
  /\ last_recovery_alert (self w') = last_recovery_alert (self w).
Proof.
  intros Harises Hcool. cbv zeta.
  destruct (handler_suppressed kind w Harises Hcool)
    as (Heval & Hfail & Hrate & Hrec & _).
  repeat split; assumption.
Qed.

Lemma within_cooldown_not_over (current_time last_alert_time : float) :
  within_cooldown cfg current_time last_alert_time = true ->
  cooldown_over cfg current_time last_alert_time = false.
Proof. apply float_lt_not_ge. Qed.

(** C6: the recovery of the pool and the recovery from a high error rate
    check and assign one timestamp, [last_recovery_alert]. When the alert of
    either goes out from [w], the timestamp takes the reading of the clock;
    and in any later world [v] that still carries this timestamp, where
    either kind of recovery arises at a reading of the clock less than the
    cooldown after it, the handler answers [False], dispatches no alert and
    leaves the timestamp. *)
Theorem recovery_kinds_share_cooldown (first second : EventKind) (w v : World) :
  is_recovery first = true ->
  is_recovery second = true ->
  arises cfg first (self w) = true ->
  cooldown_over cfg (clock (clock_reads w)) (last_recovery_alert (self w))
  = true ->
  arises cfg second (self v) = true ->
  last_recovery_alert (self v)
  = last_recovery_alert (self (exec (handler cfg clock webhook_ok first) w)) ->
  within_cooldown cfg (clock (clock_reads v)) (last_recovery_alert (self v))
  = true ->
  let w' := exec (handler cfg clock webhook_ok first) w in
  let v' := exec (handler cfg clock webhook_ok second) v in
  last_recovery_alert (self w') = clock (S (clock_reads w))
  /\ eval (handler cfg clock webhook_ok second) v = false
  /\ filter is_dispatch (added v v') = []
  /\ last_recovery_alert (self v') = last_recovery_alert (self w').
Proof.
  intros Hfirst Hsecond Harises Hover Hlater Hsame Hwithin. cbv zeta.
  assert (Hfired : allowed cfg clock first w = true)
    by (destruct first; try discriminate Hfirst; exact Hover).
  assert (Hheld : allowed cfg clock second v = false)
    by (destruct second; try discriminate Hsecond;
        apply within_cooldown_not_over; exact Hwithin).
  destruct (handler_fired first w Harises Hfired)
    as (_ & _ & _ & Hstamp & _).
  destruct (handler_suppressed second v Hlater Hheld)
    as (Heval & _ & _ & Hkept & _ & _ & _ & _ & _ & Hadded & _).
  apply added_app in Hadded.
  rewrite Hadded, Hkept, Heval.
  repeat split.
  - rewrite Hstamp. destruct first; try discriminate Hfirst; reflexivity.
  - destruct second; try discriminate Hsecond; reflexivity.
  - exact Hsame.
Qed.

(** ** Maintenance mode *)

(** C1, as the code has it: when a recovery of either kind passes its
    cooldown check while [maintenance_mode] is set, the flag is cleared
    before the alert is dispatched, so the alert is not swallowed: after the
    note that maintenance mode was disabled, [send_slack_alert] runs with
    the flag off, which posts the alert to the webhook when one is set and
    prints it otherwise. *)
Theorem recovery_in_maintenance_is_dispatched (kind : EventKind) (w : World) :
  is_recovery kind = true ->
  arises cfg kind (self w) = true ->
  cooldown_over cfg (clock (clock_reads w)) (last_recovery_alert (self w))
  = true ->
  maintenance_mode (self w) = true ->
  let w' := exec (handler cfg clock webhook_ok kind) w in
  let '(title, message, color) := alert_of cfg kind (self w) in
  maintenance_mode (self w') = false
  /\ added w w'
     = Logged "INFO" MaintenanceDisabled
       :: alert_events cfg webhook_ok false (posts w) title message color
  /\ existsb is_suppressed (added w w') = false
  /\ existsb is_delivery (added w w') = negb (webhook_unset cfg).
Proof.
  intros Hkind Harises Hover Hmaintenance. cbv zeta.
  assert (Hfired : allowed cfg clock kind w = true)
    by (destruct kind; try discriminate Hkind; exact Hover).
  destruct (handler_fired kind w Harises Hfired)
    as (_ & _ & _ & _ & Hflag & _ & _ & _ & _ & Hadded & _).
  apply added_app in Hadded.
  rewrite Hkind in Hflag. rewrite Hadded, Hflag.
  unfold fired_events. rewrite Hkind, Hmaintenance.
  destruct (alert_of cfg kind (self w)) as [[title message] color].
  cbn [app]. repeat split; unfold alert_events;
    destruct (webhook_unset cfg); try destruct (webhook_ok (posts w));
    reflexivity.
Qed.

(** ** The error-rate monitor *)

(** C9: when a high error rate arises with the degraded flag off and the
    error-rate cooldown holds the alert back, [check_error_rate] answers
    [False], emits nothing and leaves the flag off. In any later world [v]
    that still has the flag off and an error rate not over the threshold,
    [check_error_rate] again answers [False] and changes nothing: no alert
    tells of the recovery. *)
Theorem suppressed_onset_leaves_no_recovery (w v : World) :
  system_degraded (self w) = false ->
  arises cfg ErrorRate (self w) = true ->
  cooldown_over cfg (clock (clock_reads w)) (last_error_rate_alert (self w))
  = false ->
  let w' := exec (check_error_rate cfg clock webhook_ok) w in
  system_degraded (self v) = system_degraded (self w') ->
  PrimFloat.ltb (error_rate_threshold cfg) (calculate_error_rate (self v))
  = false ->
  eval (check_error_rate cfg clock webhook_ok) w = false
  /\ system_degraded (self w') = false
  /\ added w w' = []
  /\ check_error_rate cfg clock webhook_ok v = (false, v).
Proof.
  intros Hoff Harises Hheld. cbv zeta.
  pose proof (handler_suppressed ErrorRate w Harises Hheld) as Hrun.
  cbv zeta in Hrun. cbn [handler] in Hrun.
  destruct Hrun as (Heval & _ & _ & _ & _ & Hflag & _ & _ & _ & Hadded & _).
  apply added_app in Hadded.
  rewrite Hflag, Hoff. intros Hv Hrate.
  repeat split; try assumption.
  apply check_error_rate_idle; cbn [arises].
  - rewrite Hrate. apply andb_false_r.
  - rewrite Hv. apply andb_false_r.
Qed.

Lemma siblings_handler (kind kind' : EventKind) :
  In kind' (siblings kind) ->
  handler cfg clock webhook_ok kind' = handler cfg clock webhook_ok kind.
Proof.
  destruct kind; cbn [siblings In]; intros [<-|[<-|[]]]; reflexivity.
Qed.

(** Every call of a method either touches nothing or handles an event that
    arises. *)
Lemma method_cases (kind : EventKind) (w : World) :
  handler cfg clock webhook_ok kind w = (false, w)
  \/ exists kind', In kind' (siblings kind) /\ arises cfg kind' (self w) = true.
Proof.
  destruct kind as [pool|pool| |].
  1, 2: destruct (arises cfg (Failover pool) (self w)) eqn:Hfail;
    [right; exists (Failover pool); split; [left; reflexivity | exact Hfail]|];
    destruct (arises cfg (PoolRecovery pool) (self w)) eqn:Hrec;
    [right; exists (PoolRecovery pool); split;
     [right; left; reflexivity | exact Hrec]|];
    left; apply detect_failover_idle; assumption.
  1, 2: destruct (arises cfg ErrorRate (self w)) eqn:Hrate;
    [right; exists ErrorRate; split; [left; reflexivity | exact Hrate]|];
    destruct (arises cfg ErrorRecovery (self w)) eqn:Hrec;
    [right; exists ErrorRecovery; split;
     [right; left; reflexivity | exact Hrec]|];
    left; apply check_error_rate_idle; assumption.
Qed.

Lemma handler_keeps_window (kind : EventKind) (w : World) :
  request_window (self (exec (handler cfg clock webhook_ok kind) w))
  = request_window (self w).
Proof.
  destruct (method_cases kind w) as [Hidle | (kind' & Hsibling & Harises)].
  - unfold exec. rewrite Hidle. reflexivity.
  - rewrite <- (siblings_handler kind kind' Hsibling).
    destruct (allowed cfg clock kind' w) eqn:Hcool.
    + apply (handler_fired kind' w Harises Hcool).
    + apply (handler_suppressed kind' w Harises Hcool).
Qed.

(** A call of a method leaves a timestamp as it was when the cooldown check
    of every event that goes by this timestamp and arises in the call
    fails. *)
Lemma call_keeps_timestamp (kind : EventKind) (t : Timestamp) (w : World) :
  (forall kind', In kind' (siblings kind) -> timestamp_of kind' = t ->
                 arises cfg kind' (self w) = true ->
                 allowed cfg clock kind' w = false) ->
  read_timestamp t (self (exec (handler cfg clock webhook_ok kind) w))
  = read_timestamp t (self w).
Proof.
  intros Hheld.
  destruct (method_cases kind w) as [Hidle | (kind' & Hsibling & Harises)].
  - unfold exec. rewrite Hidle. reflexivity.
  - rewrite <- (siblings_handler kind kind' Hsibling).
    destruct (allowed cfg clock kind' w) eqn:Hcool.
    + destruct (handler_fired kind' w Harises Hcool)
        as (_ & Hfail & Hrate & Hrec & _).
      specialize (Hheld kind' Hsibling).
      destruct t; cbn [read_timestamp];
        rewrite ?Hfail, ?Hrate, ?Hrec;
        destruct kind'; cbn [stamp timestamp_of] in *; try reflexivity;
        specialize (Hheld eq_refl Harises); congruence.
    + destruct (handler_suppressed kind' w Harises Hcool)
        as (_ & Hfail & Hrate & Hrec & _).
      destruct t; cbn [read_timestamp]; assumption.
Qed.

Lemma process_log_line_steps (log_entry : LogEntry) (w : World) :
  exec (process_log_line cfg clock webhook_ok log_entry) w
  = exec (check_error_rate cfg clock webhook_ok)
      (at_check cfg clock webhook_ok log_entry w).
Proof.
  unfold at_check, at_detect, process_log_line, exec, bind, ret.
  destruct (track_request cfg log_entry w) as [u x]. cbn [snd].
  destruct (detect_pool cfg clock webhook_ok log_entry x) as [u' y].
  cbn [snd].
  destruct (check_error_rate cfg clock webhook_ok y) as [b w']. reflexivity.
Qed.

Lemma at_check_cases (log_entry : LogEntry) (w : World) :
  let pool := get (entry_pool log_entry) "" in
  let x := at_detect cfg log_entry w in
  at_check cfg clock webhook_ok log_entry w
  = if negb (Py.is_empty pool)
    then exec (detect_failover cfg clock webhook_ok pool) x
    else x.
Proof.
  cbv zeta. unfold at_check, detect_pool, exec, bind, ret.
  destruct (negb (Py.is_empty (get (entry_pool log_entry) "")));
    [|reflexivity].
  destruct (detect_failover cfg clock webhook_ok _ _) as [b y]. reflexivity.
Qed.

(** C5: while a line is processed, [detect_failover] is called in the world
    [at_detect] (when the line has a pool) and [check_error_rate] in the
    world [at_check]. For each of the three timestamps: when every event
    that goes by this timestamp and arises in one of the two calls has its
    cooldown check fail there, the timestamp is after the line what it was
    before. *)
Theorem suppressed_event_keeps_timestamp (t : Timestamp)
    (log_entry : LogEntry) (w : World) :
  let pool := get (entry_pool log_entry) "" in
  let x := at_detect cfg log_entry w in
  let y := at_check cfg clock webhook_ok log_entry w in
  (forall kind, In kind [Failover pool; PoolRecovery pool] ->
                timestamp_of kind = t ->
                arises cfg kind (self x) = true ->
                allowed cfg clock kind x = false) ->
  (forall kind, In kind [ErrorRate; ErrorRecovery] ->
                timestamp_of kind = t ->
                arises cfg kind (self y) = true ->
                allowed cfg clock kind y = false) ->
  read_timestamp t
    (self (exec (process_log_line cfg clock webhook_ok log_entry) w))
  = read_timestamp t (self w).
Proof.
  cbv zeta. intros Hdetect Hcheck.
  rewrite process_log_line_steps.
  etransitivity; [exact (call_keeps_timestamp ErrorRate t _ Hcheck)|].
  rewrite at_check_cases in *. cbv zeta.
  destruct (negb (Py.is_empty (get (entry_pool log_entry) ""))).
  - etransitivity; [exact (call_keeps_timestamp (Failover _) t _ Hdetect)|].
    destruct t; reflexivity.
  - destruct t; reflexivity.
Qed.

(** ** The sliding window *)

Lemma process_log_line_window (log_entry : LogEntry) (w : World) :
  request_window
    (self (exec (process_log_line cfg clock webhook_ok log_entry) w))
  = push cfg (effective_status log_entry) (request_window (self w)).
Proof.
  rewrite process_log_line_steps.
  etransitivity; [exact (handler_keeps_window ErrorRate _)|].
  rewrite at_check_cases.
  destruct (negb (Py.is_empty (get (entry_pool log_entry) "")));
    [|reflexivity].
  etransitivity; [exact (handler_keeps_window (Failover _) _) | reflexivity].
Qed.

Lemma last_n_length {A : Type} (n : Z) (l : list A) :
  List.length (last_n n l) = Nat.min (List.length l) (Z.to_nat n).
Proof. unfold last_n. rewrite length_skipn. lia. Qed.

Lemma push_last_n (outcome : Z) (window : list Z) :
  1 <= window_size cfg ->
  push cfg outcome window = last_n (window_size cfg) (window ++ [outcome]).
Proof.
  intros Hsize. unfold push, last_n, Py.slice_from, len.
  set (extended := (window ++ [outcome])%list).
  destruct (window_size cfg <? Z.of_nat (List.length extended)) eqn:Hfull.
  - apply Z.ltb_lt in Hfull.
    replace (- window_size cfg <? 0) with true
      by (symmetry; apply Z.ltb_lt; lia).
    f_equal. lia.
  - apply Z.ltb_ge in Hfull.
    replace (List.length extended - Z.to_nat (window_size cfg))%nat
      with 0%nat by lia.
    reflexivity.
Qed.

Lemma last_n_snoc {A : Type} (n : Z) (l : list A) (x : A) :
  1 <= n -> last_n n (last_n n l ++ [x]) = last_n n (l ++ [x]).
Proof.
  intros Hn. unfold last_n at 1 3. rewrite !length_app, last_n_length.
  cbn [List.length]. unfold last_n.
  destruct (Nat.le_gt_cases (List.length l) (Z.to_nat n)) as [Hshort|Hlong].
  - replace (List.length l - Z.to_nat n)%nat with 0%nat by lia.
    cbn [skipn]. f_equal. lia.
  - rewrite !skipn_app, length_skipn.
    replace (Nat.min (List.length l) (Z.to_nat n) + 1 - Z.to_nat n)%nat
      with 1%nat by lia.
    replace (List.length l + 1 - Z.to_nat n)%nat
      with (1 + (List.length l - Z.to_nat n))%nat by lia.
    rewrite <- skipn_skipn.
    replace (1 - (List.length l - (List.length l - Z.to_nat n)))%nat
      with 0%nat by lia.
    replace (1 + (List.length l - Z.to_nat n) - List.length l)%nat
      with 0%nat by lia.
    reflexivity.
Qed.

Lemma process_all_window (entries : list LogEntry) (w : World) (seen : list Z) :
  1 <= window_size cfg ->
  request_window (self w) = last_n (window_size cfg) seen ->
  request_window (self (exec (process_all cfg clock webhook_ok entries) w))
  = last_n (window_size cfg) (seen ++ map effective_status entries).
Proof.
  intros Hsize. revert w seen.
  induction entries as [|log_entry rest IH]; intros w seen Hseen.
  - cbn. rewrite app_nil_r. exact Hseen.
  - cbn [process_all map]. unfold exec, bind.
    pose proof (process_log_line_window log_entry w) as Hstep.
    unfold exec in Hstep.
    destruct (process_log_line cfg clock webhook_ok log_entry w) as [u w1].
    cbn [snd] in Hstep.
    replace (seen ++ effective_status log_entry :: map effective_status rest)%list
      with ((seen ++ [effective_status log_entry])
            ++ map effective_status rest)%list
      by (rewrite <- app_assoc; reflexivity).
    apply (IH w1). rewrite Hstep, Hseen, push_last_n by exact Hsize.
    apply last_n_snoc. exact Hsize.
Qed.

Lemma count_errors_filter (window : list Z) (error_count : Z) :
  count_errors error_count window = error_count + len (errors_in window).
Proof.
  revert error_count. unfold len, errors_in.
  induction window as [|status rest IH]; intros error_count; cbn; [lia|].
  rewrite IH. destruct (500 <=? status); cbn [List.length]; lia.
Qed.

(** C8, as the code has it. With a window size of at least one, after the
    lines of any list are processed from an empty window, the window is the
    last [window_size] of the outcomes appended, in order of arrival, all of
    them when they are fewer; so its length never exceeds [window_size].
    [calculate_error_rate] is 0.0 on the empty window; on a window of [n]
    outcomes of which [k] are 500 or more it is the binary64 product
    [(k / n) * 100], the quotient rounded before the product is. *)
Theorem window_and_error_rate (entries : list LogEntry) (w : World)
    (o : AlertWatcher) :
  1 <= window_size cfg ->
  request_window (self w) = [] ->
  let w' := exec (process_all cfg clock webhook_ok entries) w in
  let outcomes := map effective_status entries in
  request_window (self w') = last_n (window_size cfg) outcomes
  /\ len (request_window (self w')) <= window_size cfg
  /\ (window_size cfg < len outcomes ->
      len (request_window (self w')) = window_size cfg)
  /\ (request_window o = [] -> calculate_error_rate o = 0%float)
  /\ (request_window o <> [] ->
      calculate_error_rate o
      = PrimFloat.mul
          (Py.truediv (len (errors_in (request_window o)))
             (len (request_window o)))
          100%float).
Proof.
  intros Hsize Hempty. cbv zeta.
  pose proof (process_all_window entries w [] Hsize) as Hwindow.
  cbn [app] in Hwindow. rewrite Hwindow by (rewrite Hempty; reflexivity).
  unfold len. rewrite last_n_length. repeat split; try lia.
  - intros Ho. unfold calculate_error_rate. rewrite Ho. reflexivity.
  - intros Ho. unfold calculate_error_rate, len.
    destruct (request_window o) as [|status rest] eqn:Hw; [contradiction|].
    cbn [List.length]. rewrite <- Hw, count_errors_filter.
    replace (Z.of_nat (S (List.length rest)) =? 0) with false
      by (symmetry; apply Z.eqb_neq; lia).
    unfold len. rewrite Hw. reflexivity.
Qed.

(** *** A whole episode within the error-rate cooldown *)

Lemma fired_events_not_about_error_rate (kind : EventKind) (w : World) :
  timestamp_of kind <> ErrorRateStamp ->
  is_recovery kind = false \/ system_degraded (self w) = false ->
  arises cfg kind (self w) = true ->
  existsb about_error_rate (fired_events cfg webhook_ok kind w) = false.
Proof.
  intros Hstamp Hflag Harises.
  destruct kind as [pool|pool| |]; try (exfalso; apply Hstamp; reflexivity).
  - unfold fired_events, alert_events. cbn [alert_of is_recovery].
    destruct (maintenance_mode (self w)); destruct (webhook_unset cfg);
      try destruct (webhook_ok (posts w)); reflexivity.
  - unfold fired_events, alert_events. cbn [alert_of is_recovery].
    destruct (maintenance_mode (self w)); destruct (webhook_unset cfg);
      try destruct (webhook_ok (posts w)); reflexivity.
  - destruct Hflag as [Hflag|Hflag]; [discriminate Hflag|].
    cbn [arises] in Harises. rewrite Hflag, andb_false_r in Harises.
    discriminate Harises.
Qed.

(** A call of a method in a world with the degraded flag off, where a high
    error rate, if it arises, is held back by its cooldown: the flag stays
    off, the error-rate timestamp stays, and nothing emitted belongs to the
    error-rate monitor. *)
Lemma call_quiet (kind : EventKind) (w : World) :
  system_degraded (self w) = false ->
  (arises cfg ErrorRate (self w) = true ->
   allowed cfg clock ErrorRate w = false) ->
  let w' := exec (handler cfg clock webhook_ok kind) w in
  system_degraded (self w') = false
  /\ last_error_rate_alert (self w') = last_error_rate_alert (self w)
  /\ (clock_reads w <= clock_reads w')%nat
  /\ exists events, emitted w' = (emitted w ++ events)%list
                    /\ existsb about_error_rate events = false.
Proof.
  intros Hoff Hheld. cbv zeta.
  destruct (method_cases kind w) as [Hidle | (kind' & Hsibling & Harises)].
  - unfold exec. rewrite Hidle. cbn [snd].
    repeat split; try assumption; try lia.
    exists []. split; [symmetry; apply app_nil_r | reflexivity].
  - rewrite <- (siblings_handler kind kind' Hsibling).
    destruct (allowed cfg clock kind' w) eqn:Hcool.
    + assert (Hother : timestamp_of kind' <> ErrorRateStamp).
      { destruct kind'; cbn [timestamp_of]; try discriminate.
        rewrite (Hheld Harises) in Hcool. discriminate Hcool. }
      destruct (handler_fired kind' w Harises Hcool)
        as (_ & _ & Hrate & _ & _ & Hflag & _ & _ & _ & Hemitted & Hreads).
      rewrite Hflag, Hrate, Hreads.
      repeat split; try lia.
      * destruct kind' as [pool|pool| |]; cbn [degraded_after];
          try exact Hoff; try reflexivity.
        exfalso. apply Hother. reflexivity.
      * destruct kind'; cbn [stamp]; try reflexivity.
        exfalso. apply Hother. reflexivity.
      * eexists. split; [exact Hemitted|].
        apply fired_events_not_about_error_rate;
          [exact Hother | right; exact Hoff | exact Harises].
    + destruct (handler_suppressed kind' w Harises Hcool)
        as (_ & _ & Hrate & _ & _ & Hflag & _ & _ & _ & Hemitted & Hreads & _).
      rewrite Hflag, Hrate, Hreads.
      repeat split; try assumption; try lia.
      eexists. split; [exact Hemitted|].
      destruct kind'; cbn [suppressed_events existsb about_error_rate];
        try reflexivity.
      cbn [arises] in Harises. rewrite Hoff, andb_false_r in Harises.
      discriminate Harises.
Qed.

Lemma line_quiet (log_entry : LogEntry) (w : World) (stamp : float) :
  system_degraded (self w) = false ->
  last_error_rate_alert (self w) = stamp ->
  (forall n, (clock_reads w <= n)%nat ->
             cooldown_over cfg (clock n) stamp = false) ->
  let w' := exec (process_log_line cfg clock webhook_ok log_entry) w in
  system_degraded (self w') = false
  /\ last_error_rate_alert (self w') = stamp
  /\ (clock_reads w <= clock_reads w')%nat
  /\ exists events, emitted w' = (emitted w ++ events)%list
                    /\ existsb about_error_rate events = false.
Proof.
  intros Hoff Hstamp Hheld. cbv zeta.
  rewrite process_log_line_steps.
  set (x := at_detect cfg log_entry w).
  assert (Hx : system_degraded (self x) = false
               /\ last_error_rate_alert (self x) = stamp
               /\ clock_reads x = clock_reads w
               /\ emitted x = emitted w)
    by (subst x; repeat split; assumption).
  destruct Hx as (Hxoff & Hxstamp & Hxreads & Hxemitted).
  assert (Hy : let y := at_check cfg clock webhook_ok log_entry w in
               system_degraded (self y) = false
               /\ last_error_rate_alert (self y) = stamp
               /\ (clock_reads w <= clock_reads y)%nat
               /\ exists events, emitted y = (emitted w ++ events)%list
                                 /\ existsb about_error_rate events = false).
  { cbv zeta. rewrite at_check_cases. cbv zeta. fold x.
    destruct (negb (Py.is_empty (get (entry_pool log_entry) ""))).
    - destruct (call_quiet (Failover (get (entry_pool log_entry) "")) x Hxoff)
        as (Hflag & Hkept & Hreads & events & Hemitted & Hquiet).
      + intros _. unfold allowed, timer. cbn [timestamp_of read_timestamp].
        rewrite Hxstamp. apply Hheld. lia.
      + cbn [handler] in Hflag, Hkept, Hreads, Hemitted.
        repeat split; try assumption; try congruence; try lia.
        exists events. rewrite Hemitted, Hxemitted. split; [reflexivity|].
        exact Hquiet.
    - repeat split; try assumption; try lia.
      exists []. rewrite Hxemitted. split;
        [symmetry; apply app_nil_r | reflexivity]. }
  cbv zeta in Hy.
  destruct Hy as (Hyoff & Hystamp & Hyreads & events & Hyemitted & Hyquiet).
  destruct (call_quiet ErrorRate (at_check cfg clock webhook_ok log_entry w)
              Hyoff)
    as (Hflag & Hkept & Hreads & events' & Hemitted & Hquiet).
  - intros _. unfold allowed, timer. cbn [timestamp_of read_timestamp].
    rewrite Hystamp. apply Hheld. exact Hyreads.
  - cbn [handler] in Hflag, Hkept, Hreads, Hemitted.
    repeat split; try assumption; try congruence; try lia.
    exists (events ++ events')%list.
    rewrite Hemitted, Hyemitted, app_assoc, existsb_app, Hyquiet, Hquiet.
    split; reflexivity.
Qed.

(** While every reading of the clock is less than the cooldown after the
    last error-rate alert, a watcher with the degraded flag off goes through
    any lines, whatever their error rates, with the flag off and without an
    alert of a high error rate or of the recovery from it. *)
Theorem silent_degradation_episode (entries : list LogEntry) (w : World) :
  system_degraded (self w) = false ->
  (forall n, (clock_reads w <= n)%nat ->
             cooldown_over cfg (clock n) (last_error_rate_alert (self w))
             = false) ->
  let w' := exec (process_all cfg clock webhook_ok entries) w in
  system_degraded (self w') = false
  /\ existsb about_error_rate (added w w') = false.
Proof.
  intros Hoff Hheld. cbv zeta.
  enough (Hrun : system_degraded
                   (self (exec (process_all cfg clock webhook_ok entries) w))
                 = false
                 /\ exists events,
                      emitted (exec (process_all cfg clock webhook_ok entries) w)
                      = (emitted w ++ events)%list
                      /\ existsb about_error_rate events = false).
  { destruct Hrun as (Hflag & events & Hemitted & Hquiet).
    apply added_app in Hemitted. rewrite Hemitted. split; assumption. }
  remember (last_error_rate_alert (self w)) as stamp eqn:Hstamp.
  symmetry in Hstamp. revert w Hoff Hstamp Hheld.
  induction entries as [|log_entry rest IH]; intros w Hoff Hstamp Hheld.
  - cbn. split; [exact Hoff|]. exists []. split;
      [symmetry; apply app_nil_r | reflexivity].
  - destruct (line_quiet log_entry w stamp Hoff Hstamp Hheld)
      as (Hflag & Hkept & Hreads & events & Hemitted & Hquiet).
    cbn [process_all]. unfold exec, bind in *.
    destruct (process_log_line cfg clock webhook_ok log_entry w) as [u w1].
    cbn [snd] in *.
    destruct (IH w1 Hflag Hkept) as (Hflag' & events' & Hemitted' & Hquiet').
    + intros n Hn. apply Hheld. lia.
    + split; [exact Hflag'|]. exists (events ++ events')%list.
      rewrite Hemitted', Hemitted, app_assoc, existsb_app, Hquiet, Hquiet'.
      split; reflexivity.
Qed.

End MethodFacts.

(** ** The properties on the deployment of [Scenario] *)

Lemma check_error_rate_below_minimum_witness :
  check_error_rate Scenario.cfg Scenario.clock Scenario.webhook_ok
    (Scenario.world (init Scenario.cfg false) 0)
  = (false, Scenario.world (init Scenario.cfg false) 0).
Proof.
  apply (check_error_rate_below_minimum Scenario.cfg Scenario.clock
           Scenario.webhook_ok (Scenario.world (init Scenario.cfg false) 0)).
  vm_compute. reflexivity.
Defined.

Lemma return_to_initial_is_recovery_witness :
  let w := Scenario.world Scenario.on_green 0 in
  let detect :=
    detect_failover Scenario.cfg Scenario.clock Scenario.webhook_ok "blue" in
  eval detect w = true
  /\ last_pool (self (exec detect w)) = "blue"
  /\ existsb about_failover (added w (exec detect w)) = false.
Proof.
  cbv zeta.
  destruct (return_to_initial_is_recovery Scenario.cfg Scenario.clock
              Scenario.webhook_ok "blue" (Scenario.world Scenario.on_green 0))
    as (Heval & Hpool & _ & _ & Hnone & _).
  - reflexivity.
  - reflexivity.
  - discriminate.
  - repeat split; assumption.
Defined.

Lemma failover_cooldown_gate_witness :
  let w := Scenario.world Scenario.after_failover_alert 0 in
  let detect :=
    detect_failover Scenario.cfg Scenario.clock Scenario.webhook_ok "green" in
  last_pool (self (exec detect w)) = "green"
  /\ failover_count (self (exec detect w)) = 1
  /\ eval detect w = false.
Proof.
  cbv zeta.
  destruct (failover_cooldown_gate Scenario.cfg Scenario.clock
              Scenario.webhook_ok "green"
              (Scenario.world Scenario.after_failover_alert 0))
    as (Hpool & Hcount & Heval & _).
  - reflexivity.
  - discriminate.
  - intros [Hinit _]. discriminate Hinit.
  - repeat split; assumption.
Defined.

Lemma suppressed_event_keeps_timestamp_witness :
  last_failover_alert
    (self (exec (process_log_line Scenario.cfg Scenario.clock
                   Scenario.webhook_ok (Scenario.entry 200 "green" "200"))
             (Scenario.world Scenario.after_failover_alert 0)))
  = 900%float.
Proof.
  apply (suppressed_event_keeps_timestamp Scenario.cfg Scenario.clock
           Scenario.webhook_ok FailoverStamp (Scenario.entry 200 "green" "200")
           (Scenario.world Scenario.after_failover_alert 0)).
  - intros kind [<-|[<-|[]]] Hstamp Harises;
      [vm_compute; reflexivity | discriminate Hstamp].
  - intros kind [<-|[<-|[]]] Hstamp Harises; discriminate Hstamp.
Defined.

Lemma recovery_kinds_share_cooldown_witness :
  let w := Scenario.world Scenario.on_green 0 in
  let v := Scenario.world Scenario.degraded_after_pool_recovery 2 in
  eval (check_error_rate Scenario.cfg Scenario.clock Scenario.webhook_ok) v
  = false
  /\ filter is_dispatch
       (added v (exec (check_error_rate Scenario.cfg Scenario.clock
                         Scenario.webhook_ok) v))
     = [].
Proof.
  cbv zeta.
  destruct (recovery_kinds_share_cooldown Scenario.cfg Scenario.clock
              Scenario.webhook_ok (PoolRecovery "blue") ErrorRecovery
              (Scenario.world Scenario.on_green 0)
              (Scenario.world Scenario.degraded_after_pool_recovery 2))
    as (_ & Heval & Hnone & _).
  1-7: vm_compute; reflexivity.
  split; assumption.
Defined.

Lemma recovery_in_maintenance_is_dispatched_witness :
  let w := Scenario.world Scenario.degraded_and_healthy_again 0 in
  let w' :=
    exec (check_error_rate Scenario.cfg Scenario.clock Scenario.webhook_ok) w in
  maintenance_mode (self w') = false
  /\ existsb is_delivery (added w w') = true.
Proof.
  cbv zeta.
  pose proof (recovery_in_maintenance_is_dispatched Scenario.cfg Scenario.clock
                Scenario.webhook_ok ErrorRecovery
                (Scenario.world Scenario.degraded_and_healthy_again 0)) as H.
  cbv zeta in H.
  destruct (alert_of Scenario.cfg ErrorRecovery
              (self (Scenario.world Scenario.degraded_and_healthy_again 0)))
    as [[title message] color].
  destruct H as (Hflag & _ & _ & Hdelivered).
  1-4: vm_compute; reflexivity.
  split; assumption.
Defined.

Lemma suppressed_onset_leaves_no_recovery_witness :
  let w := Scenario.world Scenario.failing_within_cooldown 0 in
  let v := Scenario.world Scenario.healthy_again 1 in
  system_degraded
    (self (exec (check_error_rate Scenario.cfg Scenario.clock
                   Scenario.webhook_ok) w)) = false
  /\ check_error_rate Scenario.cfg Scenario.clock Scenario.webhook_ok v
     = (false, v).
Proof.
  cbv zeta.
  destruct (suppressed_onset_leaves_no_recovery Scenario.cfg Scenario.clock
              Scenario.webhook_ok
              (Scenario.world Scenario.failing_within_cooldown 0)
              (Scenario.world Scenario.healthy_again 1))
    as (_ & Hflag & _ & Hidle).
  1-5: vm_compute; reflexivity.
  split; assumption.
Defined.

Lemma window_and_error_rate_witness :
  request_window
    (self (exec (process_all Scenario.cfg Scenario.clock Scenario.webhook_ok
                   Scenario.four_lines)
             (Scenario.world (init Scenario.cfg false) 0)))
  = [502; 404; 502]
  /\ calculate_error_rate Scenario.one_error_in_three
     = PrimFloat.mul (Py.truediv 1 3) 100%float.
Proof.
  destruct (window_and_error_rate Scenario.cfg Scenario.clock
              Scenario.webhook_ok Scenario.four_lines
              (Scenario.world (init Scenario.cfg false) 0)
              Scenario.one_error_in_three)
    as (Hwindow & _ & _ & _ & Hrate).
  - vm_compute. discriminate.
  - reflexivity.
  - split; [exact Hwindow | apply Hrate; discriminate].
Defined.

(** With maintenance mode on and a webhook set, the recovery of the pool
    clears the flag and then posts its alert: the alert reaches the webhook.
    The recovery from a high error rate does the same. *)
Lemma recovery_alert_delivered_in_maintenance :
  let pool_case := Scenario.world Scenario.on_green 0 in
  let rate_case := Scenario.world Scenario.degraded_and_healthy_again 0 in
  let detect :=
    detect_failover Scenario.cfg Scenario.clock Scenario.webhook_ok "blue" in
  let check :=
    check_error_rate Scenario.cfg Scenario.clock Scenario.webhook_ok in
  (maintenance_mode (self pool_case) = true
   /\ arises Scenario.cfg (PoolRecovery "blue") (self pool_case) = true
   /\ allowed Scenario.cfg Scenario.clock (PoolRecovery "blue") pool_case
      = true
   /\ added pool_case (exec detect pool_case)
      = [Logged "INFO" MaintenanceDisabled;
         Posted "https://hooks.example/services/T" recovery_title
           (PoolRecoveryMessage "green" "blue" 0 1) "good";
         Logged "INFO" (AlertSent recovery_title)]
   /\ ~ (maintenance_mode (self (exec detect pool_case)) = false
         /\ existsb is_delivery (added pool_case (exec detect pool_case))
            = false))
  /\ (maintenance_mode (self rate_case) = true
      /\ arises Scenario.cfg ErrorRecovery (self rate_case) = true
      /\ allowed Scenario.cfg Scenario.clock ErrorRecovery rate_case = true
      /\ added rate_case (exec check rate_case)
         = [Logged "INFO" MaintenanceDisabled;
            Posted "https://hooks.example/services/T" recovery_title
              (SystemRecoveryMessage "blue" 0%float 2%float 0 0) "good";
            Logged "INFO" (AlertSent recovery_title)]
      /\ ~ (maintenance_mode (self (exec check rate_case)) = false
            /\ existsb is_delivery (added rate_case (exec check rate_case))
               = false)).
Proof.
  cbv zeta. repeat split; try (vm_compute; reflexivity);
    intros [_ Hnone]; vm_compute in Hnone; discriminate Hnone.
Qed.

(** One error among three outcomes: the code's [(1 / 3) * 100] is the float
    just under 100/3, while [100 * 1 / 3] is the float just over it, and
    neither is 100/3. *)
Lemma error_rate_is_not_exact :
  let o := Scenario.one_error_in_three in
  len (errors_in (request_window o)) = 1
  /\ len (request_window o) = 3
  /\ Py.exact (calculate_error_rate o) = Some (4691249611844266, 47)
  /\ Py.exact (Py.truediv (100 * 1) 3) = Some (4691249611844267, 47)
  /\ calculate_error_rate o <> Py.truediv (100 * 1) 3
  /\ 3 * 4691249611844266 <> 100 * 2 ^ 47.
Proof.
  cbv zeta. repeat split; try (vm_compute; reflexivity).
  - intros Heq. apply (f_equal Py.exact) in Heq. vm_compute in Heq.
    discriminate Heq.
  - vm_compute. discriminate.
Qed.

(** * The calls of a run *)

Section Calls.

Variable cfg : Config.
Variable clock : nat -> float.
Variable webhook_ok : nat -> bool.

Ltac split_tests H :=
  repeat (apply andb_true_iff in H as [H ?]);
  repeat match goal with
         | T : negb _ = true |- _ => apply negb_true_iff in T
         end.

Lemma handler_suppressed_object (kind : EventKind) (w : World) :
  arises cfg kind (self w) = true ->
  allowed cfg clock kind w = false ->
  self (exec (handler cfg clock webhook_ok kind) w)
  = suppressed_object kind (self w).
Proof.
  unfold allowed, timer, read_timestamp, timestamp_of, suppressed_object,
    switch_pool.
  destruct kind as [pool|pool| |]; cbn [arises]; intros Harises Hcool;
    split_tests Harises; unfold returns_to_initial in *;
    run; use_tests; cbn; use_tests; cbn; reflexivity.
Qed.

Lemma handler_fired_object (kind : EventKind) (w : World) :
  arises cfg kind (self w) = true ->
  allowed cfg clock kind w = true ->
  let w' := exec (handler cfg clock webhook_ok kind) w in
  self w' = fired_object kind (clock (S (clock_reads w))) (self w)
  /\ posts w'
     = (posts w + posts_made cfg (maintenance_at_dispatch kind (self w)))%nat.
Proof.
  unfold allowed, timer, read_timestamp, timestamp_of, fired_object,
    switch_pool, clear_maintenance, posts_made, maintenance_at_dispatch.
  destruct kind as [pool|pool| |]; cbn [arises is_recovery];
    intros Harises Hcool;
    split_tests Harises; unfold returns_to_initial in *;
    run; use_tests; cbn; use_tests; cbn;
    destruct (maintenance_mode (self w)) eqn:Hmaintenance; cbn;
    use_tests; cbn;
    destruct (webhook_unset cfg); cbn;
    try destruct (webhook_ok (posts w)); cbn;
    split; try reflexivity; lia.
Qed.

(** Every call of a method goes one of three ways: nothing arises and the
    world stays; an event arises and the cooldown holds it back; an event
    arises and its alert goes out. *)
Lemma call_outcome (kind : EventKind) (w : World) :
  let w' := exec (handler cfg clock webhook_ok kind) w in
  let result := eval (handler cfg clock webhook_ok kind) w in
  (result = false /\ w' = w)
  \/ exists kind',
       In kind' (siblings kind)
       /\ arises cfg kind' (self w) = true
       /\ ((allowed cfg clock kind' w = false
            /\ result = false
            /\ self w' = suppressed_object kind' (self w)
            /\ emitted w' = (emitted w ++ suppressed_events kind' (self w))%list
            /\ clock_reads w' = S (clock_reads w)
            /\ posts w' = posts w)
           \/ (allowed cfg clock kind' w = true
               /\ result = true
               /\ self w'
                  = fired_object kind' (clock (S (clock_reads w))) (self w)
               /\ emitted w'
                  = (emitted w ++ fired_events cfg webhook_ok kind' w)%list
               /\ clock_reads w' = S (S (clock_reads w))
               /\ posts w'
                  = (posts w
                     + posts_made cfg
                         (maintenance_at_dispatch kind' (self w)))%nat)).
Proof.
  cbv zeta.
  destruct (method_cases cfg clock webhook_ok kind w)
    as [Hidle | (kind' & Hsibling & Harises)].
  - left. unfold eval, exec. rewrite Hidle. split; reflexivity.
  - right. exists kind'. split; [exact Hsibling|]. split; [exact Harises|].
    rewrite <- (siblings_handler cfg clock webhook_ok kind kind' Hsibling).
    destruct (allowed cfg clock kind' w) eqn:Hcool.
    + right.
      pose proof (handler_fired cfg clock webhook_ok kind' w Harises Hcool)
        as Hfired.
      pose proof (handler_fired_object kind' w Harises Hcool) as Hobject.
      cbv zeta in Hfired, Hobject.
      destruct Hfired as (Heval & _ & _ & _ & _ & _ & _ & _ & _ & Hemitted
                          & Hreads).
      destruct Hobject as (Hself & Hposts).
      repeat split; assumption.
    + left.
      pose proof (handler_suppressed cfg clock webhook_ok kind' w Harises Hcool)
        as Hheld.
      cbv zeta in Hheld.
      destruct Hheld as (Heval & _ & _ & _ & _ & _ & _ & _ & _ & Hemitted
                         & Hreads & Hposts).
      repeat split; try assumption.
      apply handler_suppressed_object; assumption.
Qed.

Lemma alert_events_dispatch (maintenance : bool) (posted : nat)
    (title : string) (message : Message) (color : string) :
  filter is_dispatch
    (alert_events cfg webhook_ok maintenance posted title message color)
  = firstn 1
      (alert_events cfg webhook_ok maintenance posted title message color)
  /\ List.length
       (filter is_delivery
          (alert_events cfg webhook_ok maintenance posted title message color))
     = posts_made cfg maintenance.
Proof.
  unfold alert_events, posts_made.
  destruct maintenance; [split; reflexivity|].
  destruct (webhook_unset cfg); [split; reflexivity|].
  destruct (webhook_ok posted); split; reflexivity.
Qed.

Lemma fired_events_one_dispatch (kind : EventKind) (w : World) :
  List.length (filter is_dispatch (fired_events cfg webhook_ok kind w))
  = 1%nat.
Proof.
  unfold fired_events.
  destruct (alert_of cfg kind (self w)) as [[title message] color].
  destruct (is_recovery kind).
  - rewrite filter_app, length_app, alert_events_one_dispatch.
    destruct (maintenance_mode (self w)); reflexivity.
  - apply alert_events_one_dispatch.
Qed.

Lemma suppressed_events_no_dispatch (kind : EventKind) (o : AlertWatcher) :
  filter is_dispatch (suppressed_events kind o) = [].
Proof. destruct kind; reflexivity. Qed.

(** ** What a call answers *)

(** X1: a call of [detect_failover] or of [check_error_rate] answers [True]
    exactly when it dispatched an alert, and then it dispatched one; when it
    answers [False] it dispatched none. *)
Theorem call_answers_whether_it_dispatched (kind : EventKind) (w : World) :
  List.length
    (filter is_dispatch
       (added w (exec (handler cfg clock webhook_ok kind) w)))
  = (if eval (handler cfg clock webhook_ok kind) w then 1 else 0)%nat.
Proof.
  destruct (call_outcome kind w)
    as [[Hresult Hsame]
       | (kind' & _ & _ & [(_ & Hresult & _ & Hemitted & _)
                          | (_ & Hresult & _ & Hemitted & _)])].
  - rewrite Hresult, Hsame. unfold added. rewrite skipn_all. reflexivity.
  - rewrite Hresult, (added_app _ _ _ Hemitted),
      suppressed_events_no_dispatch. reflexivity.
  - rewrite Hresult, (added_app _ _ _ Hemitted). apply fired_events_one_dispatch.
Qed.

Ltac by_outcome kind w :=
  destruct (call_outcome kind w)
    as [[_ Hsame]
       | (kind' & Hsibling & Harises
          & [(Hcool & _ & Hself & _) | (Hcool & _ & Hself & _)])];
  [ rewrite Hsame
  | rewrite Hself; cbn [siblings In] in Hsibling;
    destruct Hsibling as [<-|[<-|[]]]
  | rewrite Hself; cbn [siblings In] in Hsibling;
    destruct Hsibling as [<-|[<-|[]]] ];
  unfold suppressed_object, fired_object, switch_pool, clear_maintenance;
  try destruct (maintenance_mode _).

(** X2: [detect_failover] never assigns the window, the degraded flag, the
    error-rate timestamp or the request counter; [check_error_rate] never
    assigns the current pool, the count of pool changes, the failover
    timestamp, the window or the request counter. *)
Theorem methods_keep_to_their_fields (pool : string) (w : World) :
  let detected := self (exec (detect_failover cfg clock webhook_ok pool) w) in
  let checked := self (exec (check_error_rate cfg clock webhook_ok) w) in
  (request_window detected = request_window (self w)
   /\ system_degraded detected = system_degraded (self w)
   /\ last_error_rate_alert detected = last_error_rate_alert (self w)
   /\ total_requests detected = total_requests (self w))
  /\ (last_pool checked = last_pool (self w)
      /\ failover_count checked = failover_count (self w)
      /\ last_failover_alert checked = last_failover_alert (self w)
      /\ request_window checked = request_window (self w)
      /\ total_requests checked = total_requests (self w)).
Proof.
  cbv zeta. split.
  - change (detect_failover cfg clock webhook_ok pool)
      with (handler cfg clock webhook_ok (Failover pool)).
    by_outcome (Failover pool) w; repeat split; reflexivity.
  - change (check_error_rate cfg clock webhook_ok)
      with (handler cfg clock webhook_ok ErrorRate).
    by_outcome ErrorRate w; repeat split; reflexivity.
Qed.


(** ** Counters along a run *)



Lemma process_all_cons (log_entry : LogEntry) (rest : list LogEntry)
    (w : World) :
  exec (process_all cfg clock webhook_ok (log_entry :: rest)) w
  = exec (process_all cfg clock webhook_ok rest)
      (exec (process_log_line cfg clock webhook_ok log_entry) w).
Proof.
  cbn [process_all]. unfold exec, bind.
  destruct (process_log_line cfg clock webhook_ok log_entry w) as [u w1].
  reflexivity.
Qed.


(** The object and the count of clock readings after a call are those of
    [call_result]: they depend on the object and the count before, on the
    clock and on the configuration, and on nothing else. *)
Lemma handler_call_result (kind : EventKind) (w : World) :
  (self (exec (handler cfg clock webhook_ok kind) w),
   clock_reads (exec (handler cfg clock webhook_ok kind) w))
  = call_result cfg clock kind (self w) (clock_reads w).
Proof.
  assert (Hone : forall kind',
             In kind' (siblings kind) ->
             arises cfg kind' (self w) = true ->
             (self (exec (handler cfg clock webhook_ok kind) w),
              clock_reads (exec (handler cfg clock webhook_ok kind) w))
             = if cooldown_over cfg (clock (clock_reads w))
                    (timer kind' (self w))
               then (fired_object kind' (clock (S (clock_reads w))) (self w),
                     S (S (clock_reads w)))
               else (suppressed_object kind' (self w), S (clock_reads w))).
  { intros kind' Hsibling Harises.
    rewrite <- (siblings_handler cfg clock webhook_ok kind kind' Hsibling).
    destruct (cooldown_over cfg (clock (clock_reads w)) (timer kind' (self w)))
      eqn:Hcool.
    - pose proof (handler_fired cfg clock webhook_ok kind' w Harises Hcool)
        as Hfired.
      pose proof (handler_fired_object kind' w Harises Hcool) as Hobject.
      cbv zeta in Hfired, Hobject.
      destruct Hfired as (_ & _ & _ & _ & _ & _ & _ & _ & _ & _ & Hreads).
      destruct Hobject as (Hself & _). rewrite Hself, Hreads. reflexivity.
    - pose proof (handler_suppressed cfg clock webhook_ok kind' w Harises Hcool)
        as Hheld.
      cbv zeta in Hheld.
      destruct Hheld as (_ & _ & _ & _ & _ & _ & _ & _ & _ & _ & Hreads & _).
      rewrite (handler_suppressed_object kind' w Harises Hcool), Hreads.
      reflexivity. }
  unfold call_result.
  destruct kind as [pool|pool| |]; cbn [siblings filter] in *.
  1, 2: destruct (arises cfg (Failover pool) (self w)) eqn:Hfail;
    [apply Hone; [left; reflexivity | exact Hfail]|];
    destruct (arises cfg (PoolRecovery pool) (self w)) eqn:Hrec;
    [apply Hone; [right; left; reflexivity | exact Hrec]|];
    cbn [handler]; unfold exec;
    rewrite (detect_failover_idle cfg clock webhook_ok pool w Hfail Hrec);
    reflexivity.
  1, 2: destruct (arises cfg ErrorRate (self w)) eqn:Hrate;
    [apply Hone; [left; reflexivity | exact Hrate]|];
    destruct (arises cfg ErrorRecovery (self w)) eqn:Hrec;
    [apply Hone; [right; left; reflexivity | exact Hrec]|];
    cbn [handler]; unfold exec;
    rewrite (check_error_rate_idle cfg clock webhook_ok w Hrate Hrec);
    reflexivity.
Qed.

(** [detect_failover] on a label: the label becomes the current pool, and
    the count of pool changes goes up by one when it differs from the pool
    before. *)
Lemma detect_failover_tracks (pool : string) (w : World) :
  Py.is_empty pool = false ->
  let w' := exec (detect_failover cfg clock webhook_ok pool) w in
  last_pool (self w') = pool
  /\ failover_count (self w')
     = failover_count (self w)
       + (if (pool =? last_pool (self w))%string then 0 else 1).
Proof.
  intros Hpool. cbv zeta.
  pose proof (handler_call_result (Failover pool) w) as Hresult.
  apply (f_equal fst) in Hresult. cbn [fst handler] in Hresult.
  rewrite Hresult. unfold call_result. cbn [siblings filter arises].
  unfold returns_to_initial. rewrite Hpool. cbn [negb andb].
  destruct (String.eqb_spec pool (last_pool (self w))) as [Hsame|Hchange].
  - rewrite <- Hsame.
    destruct (pool =? initial_pool cfg)%string; cbn [negb andb fst];
      (split; [symmetry; exact Hsame | lia]).
  - destruct ((pool =? initial_pool cfg)%string
              && negb (last_pool (self w) =? initial_pool cfg)%string);
      cbn [negb andb];
      destruct (cooldown_over cfg _ _); cbn [fst];
      unfold fired_object, suppressed_object, switch_pool, clear_maintenance;
      try destruct (maintenance_mode _); split; reflexivity.
Qed.

Lemma check_error_rate_keeps_pool (w : World) :
  last_pool (self (exec (check_error_rate cfg clock webhook_ok) w))
  = last_pool (self w)
  /\ failover_count (self (exec (check_error_rate cfg clock webhook_ok) w))
     = failover_count (self w).
Proof.
  change (check_error_rate cfg clock webhook_ok)
    with (handler cfg clock webhook_ok ErrorRate).
  by_outcome ErrorRate w; split; reflexivity.
Qed.

Lemma process_log_line_tracks (log_entry : LogEntry) (w : World) :
  let pool := get (entry_pool log_entry) "" in
  let w' := exec (process_log_line cfg clock webhook_ok log_entry) w in
  last_pool (self w')
  = (if Py.is_empty pool then last_pool (self w) else pool)
  /\ failover_count (self w')
     = failover_count (self w)
       + (if Py.is_empty pool then 0
          else if (pool =? last_pool (self w))%string then 0 else 1).
Proof.
  cbv zeta. rewrite process_log_line_steps.
  destruct (check_error_rate_keeps_pool
              (at_check cfg clock webhook_ok log_entry w))
    as (Hpool & Hcount).
  rewrite Hpool, Hcount.
  rewrite at_check_cases. cbv zeta.
  destruct (Py.is_empty (get (entry_pool log_entry) "")) eqn:Hempty;
    cbn [negb].
  - split; [reflexivity | cbn; lia].
  - destruct (detect_failover_tracks (get (entry_pool log_entry) "")
                (at_detect cfg log_entry w) Hempty) as (Hlast & Hchanges).
    rewrite Hlast, Hchanges. split; reflexivity.
Qed.

Lemma last_cons {A : Type} (l : list A) (x d : A) :
  last (x :: l) d = last l x.
Proof.
  revert x d. induction l as [|a l IH]; intros x d; [reflexivity|].
  change (last (x :: a :: l) d) with (last (a :: l) d).
  rewrite (IH a d), (IH a x). reflexivity.
Qed.

(** X5: whatever the cooldowns do, the current pool after a run is the
    label of the last line that has one (the pool before the run when no
    line has), and [failover_count] has gone up by the number of times the
    label changed from one such line to the next. *)
Theorem pool_follows_the_labels (entries : list LogEntry) (w : World) :
  let w' := exec (process_all cfg clock webhook_ok entries) w in
  last_pool (self w') = last (pool_labels entries) (last_pool (self w))
  /\ failover_count (self w')
     = failover_count (self w)
       + label_changes (last_pool (self w)) (pool_labels entries).
Proof.
  cbv zeta. revert w.
  induction entries as [|log_entry rest IH]; intros w.
  - cbn. split; [reflexivity | lia].
  - rewrite process_all_cons.
    destruct (IH (exec (process_log_line cfg clock webhook_ok log_entry) w))
      as (Hlast & Hcount).
    destruct (process_log_line_tracks log_entry w) as (Hstep & Hchange).
    cbv zeta in Hstep, Hchange.
    rewrite Hlast, Hcount, Hstep, Hchange.
    unfold pool_labels. cbn [map filter].
    destruct (Py.is_empty (get (entry_pool log_entry) "")) eqn:Hempty;
      cbn [negb].
    + split; [reflexivity | lia].
    + cbn [label_changes]. split; [|lia].
      symmetry. apply last_cons.
Qed.

(** ** What holds along every run *)

(** A run is made of the counting of a request and of calls of the two
    methods: a relation between worlds that is reflexive and transitive and
    holds across each of these holds across the run. *)
Lemma run_ind (R : World -> World -> Prop) :
  (forall w, R w w) ->
  (forall a b c, R a b -> R b c -> R a c) ->
  (forall log_entry w, R w (at_detect cfg log_entry w)) ->
  (forall kind w, R w (exec (handler cfg clock webhook_ok kind) w)) ->
  forall entries w, R w (exec (process_all cfg clock webhook_ok entries) w).
Proof.
  intros Hrefl Htrans Htrack Hcall entries.
  induction entries as [|log_entry rest IH]; intros w; [apply Hrefl|].
  rewrite process_all_cons. eapply Htrans; [|apply IH].
  rewrite process_log_line_steps.
  eapply Htrans; [|exact (Hcall ErrorRate _)].
  rewrite at_check_cases. cbv zeta.
  destruct (negb (Py.is_empty (get (entry_pool log_entry) "")));
    [|apply Htrack].
  eapply Htrans; [apply Htrack | exact (Hcall (Failover _) _)].
Qed.

Lemma fired_events_in_maintenance (kind : EventKind) (w : World) :
  maintenance_at_dispatch kind (self w) = true ->
  existsb is_delivery (fired_events cfg webhook_ok kind w) = false.
Proof.
  unfold maintenance_at_dispatch, fired_events, alert_events.
  destruct (alert_of cfg kind (self w)) as [[title message] color].
  destruct (is_recovery kind); [discriminate|].
  intros ->. reflexivity.
Qed.

(** X6: the watcher never switches maintenance mode on, and as long as the
    mode is on it posts nothing: when the flag is set after a run it was set
    before, and the run handed no alert to the webhook. *)
Theorem maintenance_mode_holds_back_posts (entries : list LogEntry)
    (w : World) :
  let w' := exec (process_all cfg clock webhook_ok entries) w in
  maintenance_mode (self w') = true ->
  maintenance_mode (self w) = true
  /\ existsb is_delivery (added w w') = false.
Proof.
  cbv zeta.
  enough (Hrun : exists events,
             emitted (exec (process_all cfg clock webhook_ok entries) w)
             = (emitted w ++ events)%list
             /\ (maintenance_mode
                   (self (exec (process_all cfg clock webhook_ok entries) w))
                 = true ->
                 maintenance_mode (self w) = true
                 /\ existsb is_delivery events = false)).
  { destruct Hrun as (events & Hemitted & Hquiet). intros Hon.
    rewrite (added_app _ _ _ Hemitted). apply Hquiet, Hon. }
  revert entries w.
  apply (run_ind (fun a b =>
           exists events,
             emitted b = (emitted a ++ events)%list
             /\ (maintenance_mode (self b) = true ->
                 maintenance_mode (self a) = true
                 /\ existsb is_delivery events = false))).
  - intros w. exists []. rewrite app_nil_r. repeat split; assumption.
  - intros a b c (events & Hab & Hquiet) (events' & Hbc & Hquiet').
    exists (events ++ events')%list. rewrite Hbc, Hab, app_assoc.
    split; [reflexivity|]. intros Hon.
    destruct (Hquiet' Hon) as (Hb & Hnone').
    destruct (Hquiet Hb) as (Ha & Hnone).
    rewrite existsb_app, Hnone, Hnone'. split; [exact Ha | reflexivity].
  - intros log_entry w. exists []. rewrite app_nil_r.
    repeat split; assumption.
  - intros kind w.
    destruct (call_outcome kind w)
      as [[_ Hsame]
         | (kind' & _ & _
            & [(_ & _ & Hself & Hemitted & _)
              | (_ & _ & Hself & Hemitted & _)])].
    + rewrite Hsame. exists []. rewrite app_nil_r. repeat split; assumption.
    + eexists. split; [exact Hemitted|]. rewrite Hself. intros Hon.
      split; [destruct kind'; exact Hon | destruct kind'; reflexivity].
    + eexists. split; [exact Hemitted|]. rewrite Hself. intros Hon.
      assert (Hflag : maintenance_mode (self w) = true
                      /\ maintenance_at_dispatch kind' (self w) = true).
      { unfold maintenance_at_dispatch.
        destruct kind'; cbn [fired_object is_recovery] in *;
          unfold clear_maintenance, switch_pool in Hon;
          cbn in Hon; try (split; exact Hon);
          destruct (maintenance_mode (self w)) eqn:Hmode; cbn in Hon;
          congruence. }
      destruct Hflag as (Hbefore & Hdispatch).
      split; [exact Hbefore|].
      apply fired_events_in_maintenance, Hdispatch.
Qed.

Lemma fired_events_high_error_rate (w : World) :
  existsb about_high_error_rate (fired_events cfg webhook_ok ErrorRate w)
  = true.
Proof.
  unfold fired_events, alert_events. cbn [alert_of is_recovery].
  destruct (maintenance_mode (self w)); [reflexivity|].
  destruct (webhook_unset cfg); reflexivity.
Qed.

(** X7: the degraded flag is set only where an alert of a high error rate
    is dispatched: when the flag is off before a run and on after it, the
    run dispatched such an alert. *)
Theorem degraded_only_with_alert (entries : list LogEntry) (w : World) :
  let w' := exec (process_all cfg clock webhook_ok entries) w in
  system_degraded (self w) = false ->
  system_degraded (self w') = true ->
  existsb about_high_error_rate (added w w') = true.
Proof.
  cbv zeta. intros Hoff Hon.
  enough (Hrun : exists events,
             emitted (exec (process_all cfg clock webhook_ok entries) w)
             = (emitted w ++ events)%list
             /\ (system_degraded
                   (self (exec (process_all cfg clock webhook_ok entries) w))
                 = true ->
                 system_degraded (self w) = true
                 \/ existsb about_high_error_rate events = true)).
  { destruct Hrun as (events & Hemitted & Hwhy).
    rewrite (added_app _ _ _ Hemitted).
    destruct (Hwhy Hon) as [Hbefore|Halert]; [congruence | exact Halert]. }
  clear Hoff Hon. revert entries w.
  apply (run_ind (fun a b =>
           exists events,
             emitted b = (emitted a ++ events)%list
             /\ (system_degraded (self b) = true ->
                 system_degraded (self a) = true
                 \/ existsb about_high_error_rate events = true))).
  - intros w. exists []. rewrite app_nil_r. split; [reflexivity | tauto].
  - intros a b c (events & Hab & Hwhy) (events' & Hbc & Hwhy').
    exists (events ++ events')%list. rewrite Hbc, Hab, app_assoc.
    split; [reflexivity|]. intros Hon. rewrite existsb_app.
    destruct (Hwhy' Hon) as [Hb|Halert];
      [|right; rewrite Halert; apply orb_true_r].
    destruct (Hwhy Hb) as [Ha|Halert]; [left; exact Ha|].
    right. rewrite Halert. reflexivity.
  - intros log_entry w. exists []. rewrite app_nil_r.
    split; [reflexivity|]. intros Hon. left. exact Hon.
  - intros kind w.
    destruct (call_outcome kind w)
      as [[_ Hsame]
         | (kind' & _ & _
            & [(_ & _ & Hself & Hemitted & _)
              | (_ & _ & Hself & Hemitted & _)])].
    + rewrite Hsame. exists []. rewrite app_nil_r. split; [reflexivity|tauto].
    + eexists. split; [exact Hemitted|]. rewrite Hself. intros Hon.
      left. destruct kind'; exact Hon.
    + eexists. split; [exact Hemitted|]. rewrite Hself. intros Hon.
      destruct kind' as [pool|pool| |];
        unfold fired_object, clear_maintenance, switch_pool in Hon.
      * left. exact Hon.
      * left. destruct (maintenance_mode _); exact Hon.
      * right. apply fired_events_high_error_rate.
      * destruct (maintenance_mode _); cbn in Hon; discriminate Hon.
Qed.

(** ** A window size of zero or less *)

Lemma push_nonpositive (outcome : Z) (window : list Z) :
  window_size cfg <= 0 ->
  push cfg outcome window
  = if window_size cfg =? 0 then (window ++ [outcome])%list
    else skipn (Z.to_nat (- window_size cfg)) (window ++ [outcome]).
Proof.
  intros Hsize. unfold push, Py.slice_from, len.
  rewrite length_app. cbn [List.length].
  replace (window_size cfg <? Z.of_nat (List.length window + 1)) with true
    by (symmetry; apply Z.ltb_lt; lia).
  destruct (window_size cfg =? 0) eqn:Hzero.
  - apply Z.eqb_eq in Hzero. rewrite Hzero.
    change (- 0 <? 0) with false. cbv iota.
    rewrite Z.min_l by lia. reflexivity.
  - apply Z.eqb_neq in Hzero.
    replace (- window_size cfg <? 0) with false
      by (symmetry; apply Z.ltb_ge; lia).
    destruct (Z.le_gt_cases (- window_size cfg)
                (Z.of_nat (List.length window + 1))) as [Hfits|Hover].
    + rewrite Z.min_l by lia. reflexivity.
    + rewrite Z.min_r by lia.
      rewrite !skipn_all2; try reflexivity; rewrite length_app;
        cbn [List.length]; lia.
Qed.

(** X8: with a window size of zero the window is never trimmed: after a run
    from an empty window it holds the outcomes of all the lines. With a
    negative window size it holds none of them. *)
Theorem nonpositive_window_size (entries : list LogEntry) (w : World) :
  window_size cfg <= 0 ->
  request_window (self w) = [] ->
  request_window (self (exec (process_all cfg clock webhook_ok entries) w))
  = if window_size cfg =? 0 then map effective_status entries else [].
Proof.
  intros Hsize Hempty.
  enough (Hrun : forall seen w,
             request_window (self w)
             = (if window_size cfg =? 0 then seen else []) ->
             request_window
               (self (exec (process_all cfg clock webhook_ok entries) w))
             = if window_size cfg =? 0
               then (seen ++ map effective_status entries)%list else [])
    by (apply (Hrun [] w); rewrite Hempty; destruct (_ =? _); reflexivity).
  induction entries as [|log_entry rest IH]; intros seen w' Hseen.
  - cbn. rewrite app_nil_r. exact Hseen.
  - rewrite process_all_cons.
    replace (seen ++ map effective_status (log_entry :: rest))%list
      with ((seen ++ [effective_status log_entry])
            ++ map effective_status rest)%list
      by (rewrite <- app_assoc; reflexivity).
    apply IH.
    rewrite (process_log_line_window cfg clock webhook_ok), Hseen,
      push_nonpositive by exact Hsize.
    destruct (window_size cfg =? 0) eqn:Hzero; [reflexivity|].
    apply Z.eqb_neq in Hzero. apply skipn_all2. cbn [app List.length]. lia.
Qed.

(** ** The object after a run *)

Lemma process_log_line_result (log_entry : LogEntry) (w : World) :
  (self (exec (process_log_line cfg clock webhook_ok log_entry) w),
   clock_reads (exec (process_log_line cfg clock webhook_ok log_entry) w))
  = line_result cfg clock log_entry (self w, clock_reads w).
Proof.
  rewrite process_log_line_steps.
  etransitivity; [exact (handler_call_result ErrorRate _)|].
  unfold line_result. cbv zeta. cbn [fst snd].
  rewrite at_check_cases. cbv zeta.
  destruct (negb (Py.is_empty (get (entry_pool log_entry) ""))).
  - pose proof (handler_call_result (Failover (get (entry_pool log_entry) ""))
                  (at_detect cfg log_entry w)) as Hdetect.
    cbn [handler] in Hdetect.
    change (self (at_detect cfg log_entry w))
      with (tracked cfg log_entry (self w)) in Hdetect.
    change (clock_reads (at_detect cfg log_entry w))
      with (clock_reads w) in Hdetect.
    rewrite <- Hdetect. reflexivity.
  - reflexivity.
Qed.

Lemma process_all_result (entries : list LogEntry) (w : World) :
  (self (exec (process_all cfg clock webhook_ok entries) w),
   clock_reads (exec (process_all cfg clock webhook_ok entries) w))
  = run_result cfg clock entries (self w, clock_reads w).
Proof.
  revert w. induction entries as [|log_entry rest IH]; intros w;
    [reflexivity|].
  rewrite process_all_cons, IH, process_log_line_result. reflexivity.
Qed.

End Calls.

(** ** What the object does not depend on *)

Lemma call_result_same_detection (cfg cfg' : Config) (clock : nat -> float)
    (kind : EventKind) (o : AlertWatcher) (reads : nat) :
  same_detection cfg cfg' ->
  call_result cfg clock kind o reads = call_result cfg' clock kind o reads.
Proof.
  destruct cfg as [url pool threshold size cooldown],
           cfg' as [url' pool' threshold' size' cooldown'].
  unfold same_detection. cbn. intros (-> & -> & -> & ->). reflexivity.
Qed.

Lemma run_result_same_detection (cfg cfg' : Config) (clock : nat -> float)
    (entries : list LogEntry) (state : AlertWatcher * nat) :
  same_detection cfg cfg' ->
  run_result cfg clock entries state = run_result cfg' clock entries state.
Proof.
  destruct cfg as [url pool threshold size cooldown],
           cfg' as [url' pool' threshold' size' cooldown'].
  unfold same_detection. cbn. intros (-> & -> & -> & ->). reflexivity.
Qed.

(** X9: the object after a run does not depend on the webhook: with
    another URL or none, and whichever POSTs fail, the same lines read
    against the same clock leave the same pool, counters, window, flags and
    timestamps. A failed delivery still takes its cooldown. *)
Theorem delivery_never_changes_the_object (cfg cfg' : Config)
    (clock : nat -> float) (webhook_ok webhook_ok' : nat -> bool)
    (entries : list LogEntry) (w w' : World) :
  same_detection cfg cfg' ->
  self w = self w' ->
  clock_reads w = clock_reads w' ->
  self (exec (process_all cfg clock webhook_ok entries) w)
  = self (exec (process_all cfg' clock webhook_ok' entries) w').
Proof.
  intros Hcfg Hself Hreads.
  pose proof (process_all_result cfg clock webhook_ok entries w) as Hleft.
  pose proof (process_all_result cfg' clock webhook_ok' entries w') as Hright.
  rewrite (run_result_same_detection cfg cfg' _ _ _ Hcfg), Hself, Hreads,
    <- Hright in Hleft.
  exact (f_equal fst Hleft).
Qed.

Section Maintenance.

Variable cfg : Config.
Variable clock : nat -> float.

Lemma call_result_flag_off (kind : EventKind) (o : AlertWatcher)
    (reads : nat) :
  alike (call_result cfg clock kind o reads)
    (call_result cfg clock kind (set_maintenance_mode false o) reads).
Proof.
  unfold alike, same_but_maintenance, call_result.
  assert (Harises : forall kind',
             arises cfg kind' (set_maintenance_mode false o)
             = arises cfg kind' o)
    by (intros kind'; destruct kind'; reflexivity).
  assert (Htimer : forall kind',
             timer kind' (set_maintenance_mode false o) = timer kind' o)
    by (intros kind'; destruct kind'; reflexivity).
  destruct kind as [pool|pool| |]; cbn [siblings filter];
    rewrite !Harises;
    repeat match goal with
           | |- context [if arises cfg ?k o then _ else _] =>
               destruct (arises cfg k o)
           end;
    rewrite ?Htimer;
    try destruct (cooldown_over cfg _ _); cbn [fst snd];
    unfold fired_object, suppressed_object, clear_maintenance, switch_pool;
    cbn [maintenance_mode set_maintenance_mode set_last_pool
         set_failover_count set_system_degraded];
    try destruct (maintenance_mode o); split; reflexivity.
Qed.

Lemma call_result_alike (kind : EventKind) (o o' : AlertWatcher)
    (reads : nat) :
  same_but_maintenance o o' ->
  alike (call_result cfg clock kind o reads)
    (call_result cfg clock kind o' reads).
Proof.
  intros Hsame.
  destruct (call_result_flag_off kind o reads) as (Hleft & Hreads).
  destruct (call_result_flag_off kind o' reads) as (Hright & Hreads').
  unfold same_but_maintenance in Hsame. rewrite <- Hsame in Hright, Hreads'.
  unfold alike, same_but_maintenance in *. split; congruence.
Qed.

Lemma line_result_alike (log_entry : LogEntry)
    (state state' : AlertWatcher * nat) :
  alike state state' ->
  alike (line_result cfg clock log_entry state)
    (line_result cfg clock log_entry state').
Proof.
  destruct state as [o reads], state' as [o' reads'].
  intros (Hsame & Hreads). cbn [fst snd] in Hsame, Hreads. subst reads'.
  unfold line_result. cbv zeta. cbn [fst snd].
  assert (Htracked : same_but_maintenance (tracked cfg log_entry o)
                       (tracked cfg log_entry o')).
  { unfold same_but_maintenance in *.
    change (set_maintenance_mode false (tracked cfg log_entry o))
      with (tracked cfg log_entry (set_maintenance_mode false o)).
    change (set_maintenance_mode false (tracked cfg log_entry o'))
      with (tracked cfg log_entry (set_maintenance_mode false o')).
    rewrite Hsame. reflexivity. }
  destruct (negb (Py.is_empty (get (entry_pool log_entry) ""))).
  - destruct (call_result_alike (Failover (get (entry_pool log_entry) ""))
                _ _ reads Htracked) as (Hdetected & Hreads).
    rewrite <- Hreads. apply call_result_alike. exact Hdetected.
  - cbn [fst snd]. apply call_result_alike. exact Htracked.
Qed.

Lemma run_result_alike (entries : list LogEntry)
    (state state' : AlertWatcher * nat) :
  alike state state' ->
  alike (run_result cfg clock entries state)
    (run_result cfg clock entries state').
Proof.
  revert state state'.
  induction entries as [|log_entry rest IH]; intros state state' Halike;
    [exact Halike|].
  cbn [run_result fold_left]. apply IH, line_result_alike, Halike.
Qed.

(** X10: maintenance mode changes nothing in what the watcher detects: two
    runs over the same lines and clock, from objects that differ at most in
    the maintenance flag, end in objects that differ at most in the flag,
    after the same number of clock readings. *)
Theorem maintenance_changes_no_transition (webhook_ok webhook_ok' : nat -> bool)
    (entries : list LogEntry) (w w' : World) :
  same_but_maintenance (self w) (self w') ->
  clock_reads w = clock_reads w' ->
  same_but_maintenance
    (self (exec (process_all cfg clock webhook_ok entries) w))
    (self (exec (process_all cfg clock webhook_ok' entries) w'))
  /\ clock_reads (exec (process_all cfg clock webhook_ok entries) w)
     = clock_reads (exec (process_all cfg clock webhook_ok' entries) w').
Proof.
  intros Hsame Hreads.
  pose proof (process_all_result cfg clock webhook_ok entries w) as Hleft.
  pose proof (process_all_result cfg clock webhook_ok' entries w') as Hright.
  destruct (run_result_alike entries (self w, clock_reads w)
              (self w', clock_reads w') (conj Hsame Hreads)) as (Hobject & Hcount).
  rewrite <- Hleft, <- Hright in Hobject, Hcount. split; assumption.
Qed.

End Maintenance.

(** * Startup *)

(** X11: when [__init__] succeeds it leaves the object of [init], on the
    initial pool with an empty window, and it posts the startup notice
    exactly when a webhook is set, once, whether or not maintenance mode is
    on; without a webhook it posts nothing and logs a warning. *)
Theorem startup_notice_ignores_maintenance
    (getenv : string -> option string)
    (float_of_string : string -> option float) (post_ok : bool)
    (cfg : Config) (o : AlertWatcher) (events : list Startup.StartupEvent) :
  Startup.__init__ getenv float_of_string post_ok = Some (cfg, o, events) ->
  List.length (filter Startup.is_startup_post events)
  = (if webhook_unset cfg then 0 else 1)%nat
  /\ existsb
       (fun e =>
          match e with
          | Startup.StartupLogged _ Startup.WebhookNotSet => true
          | _ => false
          end) events
     = webhook_unset cfg
  /\ maintenance_mode o = Startup.read_maintenance_mode getenv
  /\ last_pool o = initial_pool cfg
  /\ request_window o = []
  /\ slack_webhook_url cfg = getenv "SLACK_WEBHOOK_URL".
Proof.
  unfold Startup.__init__.
  destruct (float_of_string _) as [threshold|]; [|discriminate].
  destruct (Py.int (get (getenv "WINDOW_SIZE") "200")) as [size|];
    [|discriminate].
  destruct (Py.int (get (getenv "ALERT_COOLDOWN_SEC") "300")) as [cooldown|];
    [|discriminate].
  cbv zeta. intros Hinit. injection Hinit as <- <- <-.
  unfold webhook_unset. cbn [slack_webhook_url].
  destruct (getenv "SLACK_WEBHOOK_URL") as [url|];
    [destruct (Py.is_empty url)|];
    destruct post_ok; repeat split; reflexivity.
Qed.

Lemma lower_char_is (c target : ascii) (capital : ascii) :
  (target = "t" /\ capital = "T" \/ target = "r" /\ capital = "R"
   \/ target = "u" /\ capital = "U" \/ target = "e" /\ capital = "E")%char ->
  Startup.lower_char c = target <-> c = target \/ c = capital.
Proof.
  intros [[-> ->]|[[-> ->]|[[-> ->]|[-> ->]]]];
    destruct c as [[] [] [] [] [] [] [] []];
    (split; [intros H; vm_compute in H; try discriminate H; auto
            | intros [H|H]; try discriminate H; reflexivity]).
Qed.

(** X12: maintenance mode is on at startup exactly when the variable
    [MAINTENANCE_MODE] is set to the word [true] in any mix of capitals and
    small letters; any other value, such as [1], [yes] or the word with a
    space around it, and the unset variable leave it off. *)
Theorem maintenance_mode_needs_the_word_true
    (getenv : string -> option string) :
  Startup.read_maintenance_mode getenv = true
  <-> exists a b c d,
        getenv "MAINTENANCE_MODE"
        = Some (String a (String b (String c (String d ""))))
        /\ (a = "t" \/ a = "T")%char /\ (b = "r" \/ b = "R")%char
        /\ (c = "u" \/ c = "U")%char /\ (d = "e" \/ d = "E")%char.
Proof.
  unfold Startup.read_maintenance_mode. rewrite String.eqb_eq.
  assert (Ht := fun c => lower_char_is c "t" "T"
                           (or_introl (conj eq_refl eq_refl))).
  assert (Hr := fun c => lower_char_is c "r" "R"
                           (or_intror (or_introl (conj eq_refl eq_refl)))).
  assert (Hu := fun c => lower_char_is c "u" "U"
                           (or_intror (or_intror
                              (or_introl (conj eq_refl eq_refl))))).
  assert (He := fun c => lower_char_is c "e" "E"
                           (or_intror (or_intror
                              (or_intror (conj eq_refl eq_refl))))).
  split.
  - destruct (getenv "MAINTENANCE_MODE") as [value|]; [|discriminate].
    cbn [get]. intros Hlower.
    destruct value as [|a [|b [|c [|d [|x rest]]]]]; try discriminate Hlower.
    cbn [Startup.lower] in Hlower.
    injection Hlower as Ha Hb Hc Hd.
    exists a, b, c, d. split; [reflexivity|].
    repeat split; [apply Ht | apply Hr | apply Hu | apply He]; assumption.
  - intros (a & b & c & d & -> & Ha & Hb & Hc & Hd). cbn [get Startup.lower].
    apply Ht in Ha. apply Hr in Hb. apply Hu in Hc. apply He in Hd.
    rewrite Ha, Hb, Hc, Hd. reflexivity.
Qed.

(** * Cutting a string *)

Lemma split_from_nonempty (sep : string) (skip : nat) (s : string) :
  Py.split_from sep skip s <> [].
Proof.
  revert skip. induction s as [|c r IH]; intros skip; [discriminate|].
  cbn [Py.split_from]. destruct skip as [|k]; [|apply IH].
  destruct (prefix sep (String c r)); [discriminate|].
  destruct (Py.split_from sep 0 r); discriminate.
Qed.

Lemma split_from_skips (sep passed rest : string) :
  Py.split_from sep (String.length passed) (passed ++ rest)
  = Py.split_from sep 0 rest.
Proof.
  induction passed as [|c passed IH]; [reflexivity|].
  cbn [String.length append Py.split_from]. exact IH.
Qed.

Lemma prefix_append (sep s : string) :
  prefix sep s = true -> exists rest, s = (sep ++ rest)%string.
Proof.
  revert s. induction sep as [|d sep IH]; intros s Hprefix.
  - exists s. reflexivity.
  - destruct s as [|c r]; [discriminate Hprefix|].
    cbn [prefix] in Hprefix.
    destruct (ascii_dec d c) as [->|]; [|discriminate Hprefix].
    destruct (IH r Hprefix) as (rest & ->). exists rest. reflexivity.
Qed.

Lemma length_append (a b : string) :
  String.length (a ++ b) = (String.length a + String.length b)%nat.
Proof.
  induction a as [|c a IH]; [reflexivity|].
  cbn [append String.length]. rewrite IH. reflexivity.
Qed.

Lemma concat_cons (sep first : string) (others : list string) :
  others <> [] ->
  String.concat sep (first :: others)
  = (first ++ sep ++ String.concat sep others)%string.
Proof. destruct others; [contradiction | reflexivity]. Qed.

Lemma concat_head (sep tok : string) (c : ascii) (toks : list string) :
  String.concat sep (String c tok :: toks)
  = String c (String.concat sep (tok :: toks)).
Proof. destruct toks; reflexivity. Qed.

(** X13: cutting a string at a separator that is not empty loses nothing:
    the pieces of [split], joined again with the separator between them,
    are the string. *)
Theorem split_then_join (sep s : string) :
  sep <> "" ->
  String.concat sep (Py.split sep s) = s.
Proof.
  intros Hsep. unfold Py.split.
  remember (String.length s) as n eqn:Hn.
  revert s Hn. induction n as [n IH] using lt_wf_ind. intros s Hn.
  destruct s as [|c r]; [reflexivity|].
  cbn [Py.split_from].
  destruct (prefix sep (String c r)) eqn:Hprefix.
  - destruct (prefix_append _ _ Hprefix) as (rest & Hs).
    destruct sep as [|d sep']; [contradiction|].
    cbn [append] in Hs. injection Hs as -> ->.
    cbn [String.length Nat.pred]. rewrite split_from_skips.
    rewrite concat_cons by apply split_from_nonempty.
    rewrite (IH (String.length rest)); [reflexivity | | reflexivity].
    subst n. cbn [String.length]. rewrite length_append. lia.
  - pose proof (split_from_nonempty sep 0 r) as Hnonempty.
    destruct (Py.split_from sep 0 r) as [|tok toks] eqn:Hsplit;
      [contradiction|].
    rewrite concat_head, <- Hsplit.
    rewrite (IH (String.length r)); [reflexivity | | reflexivity].
    subst n. cbn [String.length]. lia.
Qed.

(** * The alerts of the error-rate monitor, and of a line *)

Section Alerts.

Variable cfg : Config.
Variable clock : nat -> float.
Variable webhook_ok : nat -> bool.

(** X14: with the minimum of samples reached, the error rate over the
    threshold and the error-rate cooldown over, [check_error_rate] alerts
    whether or not the system was degraded already: it answers [True], sets
    the degraded flag, assigns the reading of the clock that follows the
    check to the error-rate timestamp and to no other, and dispatches one
    alert of a high error rate with the rate, the threshold, the errors in
    the window and its length, the pool and the request count. *)
Theorem high_error_rate_alerts (w : World) :
  minimum_requests cfg <= len (request_window (self w)) ->
  PrimFloat.ltb (error_rate_threshold cfg) (calculate_error_rate (self w))
  = true ->
  cooldown_over cfg (clock (clock_reads w)) (last_error_rate_alert (self w))
  = true ->
  let w' := exec (check_error_rate cfg clock webhook_ok) w in
  eval (check_error_rate cfg clock webhook_ok) w = true
  /\ system_degraded (self w') = true
  /\ last_error_rate_alert (self w') = clock (S (clock_reads w))
  /\ last_failover_alert (self w') = last_failover_alert (self w)
  /\ last_recovery_alert (self w') = last_recovery_alert (self w)
  /\ maintenance_mode (self w') = maintenance_mode (self w)
  /\ added w w'
     = alert_events cfg webhook_ok (maintenance_mode (self w)) (posts w)
         error_rate_title
         (HighErrorRateMessage (calculate_error_rate (self w))
            (error_rate_threshold cfg)
            (len (errors_in (request_window (self w))))
            (len (request_window (self w)))
            (last_pool (self w)) (total_requests (self w)))
         "danger".
Proof.
  intros Hlen Hrate Hcool. cbv zeta.
  assert (Harises : arises cfg ErrorRate (self w) = true).
  { cbn [arises]. rewrite Hrate, andb_true_r. apply negb_true_iff.
    apply Z.ltb_ge. exact Hlen. }
  pose proof (handler_fired cfg clock webhook_ok ErrorRate w Harises Hcool)
    as Hfired.
  cbv zeta in Hfired. cbn [handler] in Hfired.
  destruct Hfired as (Heval & Hfail & Herr & Hrec & Hmode & Hflag & _ & _ & _
                      & Hemitted & _).
  apply added_app in Hemitted.
  rewrite Heval, Hfail, Herr, Hrec, Hmode, Hflag, Hemitted.
  unfold fired_events. cbn [alert_of is_recovery].
  rewrite count_errors_filter.
  repeat split; reflexivity.
Qed.

(** X15: a recovery from a high error rate that the recovery cooldown holds
    back is put off, not lost: the call answers [False] and leaves the
    degraded flag on, and when the cooldown is over at the next call, that
    call answers [True], clears the flag and dispatches an alert that is
    not swallowed by maintenance mode. *)
Theorem error_recovery_is_put_off (w : World) :
  arises cfg ErrorRecovery (self w) = true ->
  cooldown_over cfg (clock (clock_reads w)) (last_recovery_alert (self w))
  = false ->
  cooldown_over cfg (clock (S (clock_reads w)))
    (last_recovery_alert (self w)) = true ->
  let held := exec (check_error_rate cfg clock webhook_ok) w in
  let recovered := exec (check_error_rate cfg clock webhook_ok) held in
  eval (check_error_rate cfg clock webhook_ok) w = false
  /\ system_degraded (self held) = true
  /\ eval (check_error_rate cfg clock webhook_ok) held = true
  /\ system_degraded (self recovered) = false
  /\ List.length (filter is_dispatch (added held recovered)) = 1%nat
  /\ existsb is_suppressed (added held recovered) = false.
Proof.
  intros Harises Hheld Hover. cbv zeta.
  pose proof (handler_suppressed cfg clock webhook_ok ErrorRecovery w Harises
                Hheld) as Hfirst.
  cbv zeta in Hfirst. cbn [handler] in Hfirst.
  destruct Hfirst as (Heval & _ & _ & Hrec & _ & Hflag & Hwindow & _ & _ & _
                      & Hreads & _).
  set (held := exec (check_error_rate cfg clock webhook_ok) w) in *.
  assert (Hdegraded : system_degraded (self w) = true)
    by (cbn [arises] in Harises; apply andb_true_iff in Harises;
        apply Harises).
  assert (Hagain : arises cfg ErrorRecovery (self held) = true).
  { cbn [arises] in *. unfold calculate_error_rate in *.
    rewrite Hflag, Hwindow. exact Harises. }
  assert (Hnow : allowed cfg clock ErrorRecovery held = true).
  { unfold allowed, timer. cbn [timestamp_of read_timestamp].
    rewrite Hreads, Hrec. exact Hover. }
  pose proof (handler_fired cfg clock webhook_ok ErrorRecovery held Hagain
                Hnow) as Hsecond.
  cbv zeta in Hsecond. cbn [handler] in Hsecond.
  destruct Hsecond as (Heval' & _ & _ & _ & _ & Hflag' & _ & _ & _
                       & Hemitted & _).
  apply added_app in Hemitted.
  rewrite Heval, Heval', Hflag, Hflag', Hemitted, Hdegraded.
  rewrite (fired_events_one_dispatch cfg webhook_ok).
  repeat split; try reflexivity.
  unfold fired_events, alert_events. cbn [alert_of is_recovery].
  destruct (maintenance_mode (self held)); destruct (webhook_unset cfg);
    try destruct (webhook_ok (posts held)); reflexivity.
Qed.

Lemma call_emits (kind : EventKind) (w : World) :
  exists events,
    emitted (exec (handler cfg clock webhook_ok kind) w)
    = (emitted w ++ events)%list
    /\ (List.length (filter is_dispatch events) <= 1)%nat.
Proof.
  destruct (call_outcome cfg clock webhook_ok kind w)
    as [[_ Hsame]
       | (kind' & _ & _
          & [(_ & _ & _ & Hemitted & _) | (_ & _ & _ & Hemitted & _)])].
  - rewrite Hsame. exists []. rewrite app_nil_r. split; [reflexivity|].
    cbn. lia.
  - eexists. split; [exact Hemitted|].
    rewrite (suppressed_events_no_dispatch kind'). cbn. lia.
  - eexists. split; [exact Hemitted|].
    rewrite (fired_events_one_dispatch cfg webhook_ok). lia.
Qed.

(** X16: a line dispatches at most two alerts, one from [detect_failover]
    and one from [check_error_rate]; a line without a pool label at most
    one. *)
Theorem line_dispatches_at_most_two (log_entry : LogEntry) (w : World) :
  let w' := exec (process_log_line cfg clock webhook_ok log_entry) w in
  (List.length (filter is_dispatch (added w w'))
   <= (if Py.is_empty (get (entry_pool log_entry) "") then 1 else 2))%nat.
Proof.
  cbv zeta. rewrite process_log_line_steps.
  destruct (call_emits ErrorRate (at_check cfg clock webhook_ok log_entry w))
    as (checked & Hchecked & Hone).
  cbn [handler] in Hchecked.
  assert (Hdetected : exists events,
             emitted (at_check cfg clock webhook_ok log_entry w)
             = (emitted w ++ events)%list
             /\ (List.length (filter is_dispatch events)
                 <= (if Py.is_empty (get (entry_pool log_entry) "")
                     then 0 else 1))%nat).
  { rewrite at_check_cases. cbv zeta.
    destruct (Py.is_empty (get (entry_pool log_entry) "")); cbn [negb].
    - exists []. rewrite app_nil_r. split; [reflexivity | cbn; lia].
    - destruct (call_emits (Failover (get (entry_pool log_entry) ""))
                  (at_detect cfg log_entry w)) as (events & Hevents & Hle).
      exists events. split; [exact Hevents | exact Hle]. }
  destruct Hdetected as (detected & Hdetected & Hle).
  rewrite Hdetected, <- app_assoc in Hchecked.
  rewrite (added_app _ _ _ Hchecked), filter_app, length_app.
  destruct (Py.is_empty (get (entry_pool log_entry) "")); lia.
Qed.

End Alerts.

(** * The further properties on the deployments *)

Lemma maintenance_mode_holds_back_posts_witness :
  let w := Scenario.world (init Scenario.cfg true) 0 in
  existsb is_delivery
    (added w
       (exec (process_all Scenario.cfg Scenario.clock Scenario.webhook_ok
                [Scenario.entry 200 "green" "200"]) w))
  = false.
Proof.
  cbv zeta.
  apply (maintenance_mode_holds_back_posts Scenario.cfg Scenario.clock
           Scenario.webhook_ok [Scenario.entry 200 "green" "200"]
           (Scenario.world (init Scenario.cfg true) 0)).
  vm_compute. reflexivity.
Defined.

Lemma degraded_only_with_alert_witness :
  let w := Scenario.world (init Scenario.cfg false) 0 in
  existsb about_high_error_rate
    (added w
       (exec (process_all Scenario.cfg Scenario.clock Scenario.webhook_ok
                [Scenario.entry 500 "blue" ""; Scenario.entry 500 "blue" "";
                 Scenario.entry 500 "blue" ""]) w))
  = true.
Proof.
  cbv zeta.
  apply (degraded_only_with_alert Scenario.cfg Scenario.clock
           Scenario.webhook_ok
           [Scenario.entry 500 "blue" ""; Scenario.entry 500 "blue" "";
            Scenario.entry 500 "blue" ""]
           (Scenario.world (init Scenario.cfg false) 0));
    vm_compute; reflexivity.
Defined.

Lemma nonpositive_window_size_witness :
  request_window
    (self (exec (process_all Unbounded.cfg Scenario.clock Scenario.webhook_ok
                   Scenario.four_lines)
             (Scenario.world (init Unbounded.cfg false) 0)))
  = [200; 502; 404; 502].
Proof.
  apply (nonpositive_window_size Unbounded.cfg Scenario.clock
           Scenario.webhook_ok Scenario.four_lines
           (Scenario.world (init Unbounded.cfg false) 0)).
  - vm_compute. discriminate.
  - reflexivity.
Defined.

Lemma delivery_never_changes_the_object_witness :
  self (exec (process_all Scenario.cfg Scenario.clock Scenario.webhook_ok
                Scenario.four_lines)
          (Scenario.world (init Scenario.cfg false) 0))
  = self (exec (process_all Scenario.cfg Scenario.clock (fun _ => false)
                  Scenario.four_lines)
            (Scenario.world (init Scenario.cfg false) 0)).
Proof.
  apply (delivery_never_changes_the_object Scenario.cfg Scenario.cfg
           Scenario.clock Scenario.webhook_ok (fun _ => false)
           Scenario.four_lines
           (Scenario.world (init Scenario.cfg false) 0)
           (Scenario.world (init Scenario.cfg false) 0)).
  - repeat split; reflexivity.
  - reflexivity.
  - reflexivity.
Defined.

Lemma maintenance_changes_no_transition_witness :
  same_but_maintenance
    (self (exec (process_all Scenario.cfg Scenario.clock Scenario.webhook_ok
                   Scenario.four_lines)
             (Scenario.world (init Scenario.cfg true) 0)))
    (self (exec (process_all Scenario.cfg Scenario.clock Scenario.webhook_ok
                   Scenario.four_lines)
             (Scenario.world (init Scenario.cfg false) 0))).
Proof.
  apply (maintenance_changes_no_transition Scenario.cfg Scenario.clock
           Scenario.webhook_ok Scenario.webhook_ok Scenario.four_lines
           (Scenario.world (init Scenario.cfg true) 0)
           (Scenario.world (init Scenario.cfg false) 0));
    reflexivity.
Defined.

Lemma startup_notice_ignores_maintenance_witness :
  exists cfg o events,
    Startup.__init__ Startup.maintenance_env Startup.float_of_default true
    = Some (cfg, o, events)
    /\ maintenance_mode o = true
    /\ List.length (filter Startup.is_startup_post events) = 1%nat.
Proof.
  destruct (Startup.__init__ Startup.maintenance_env Startup.float_of_default
              true) as [[[cfg o] events]|] eqn:Hinit;
    [|vm_compute in Hinit; discriminate Hinit].
  exists cfg, o, events.
  destruct (startup_notice_ignores_maintenance Startup.maintenance_env
              Startup.float_of_default true cfg o events Hinit)
    as (Hposts & _ & Hmode & _).
  vm_compute in Hinit. injection Hinit as <- <- <-.
  split; [reflexivity|]. split; [exact Hmode | exact Hposts].
Defined.

Lemma split_then_join_witness :
  String.concat ", " (Py.split ", " "502, 200") = "502, 200".
Proof. apply (split_then_join ", " "502, 200"). discriminate. Defined.

Lemma high_error_rate_alerts_witness :
  let w := Scenario.world
             (set_request_window [500; 500; 500] (init Scenario.cfg false))
             0 in
  system_degraded
    (self (exec (check_error_rate Scenario.cfg Scenario.clock
                   Scenario.webhook_ok) w)) = true.
Proof.
  cbv zeta.
  apply (high_error_rate_alerts Scenario.cfg Scenario.clock
           Scenario.webhook_ok
           (Scenario.world
              (set_request_window [500; 500; 500] (init Scenario.cfg false))
              0));
    vm_compute; try reflexivity; discriminate.
Defined.

Lemma error_recovery_is_put_off_witness :
  let w := Scenario.world
             (set_last_recovery_alert 701%float
                Scenario.degraded_and_healthy_again) 0 in
  let held :=
    exec (check_error_rate Scenario.cfg Scenario.clock Scenario.webhook_ok)
      w in
  system_degraded (self held) = true
  /\ eval (check_error_rate Scenario.cfg Scenario.clock Scenario.webhook_ok)
       held = true.
Proof.
  cbv zeta.
  destruct (error_recovery_is_put_off Scenario.cfg Scenario.clock
              Scenario.webhook_ok
              (Scenario.world
                 (set_last_recovery_alert 701%float
                    Scenario.degraded_and_healthy_again) 0))
    as (_ & Hheld & Hfires & _).
  1-3: vm_compute; reflexivity.
  split; assumption.
Defined.
